(** * cupy.cuda.thrust: the dispatch-and-memory bridge to the Thrust backend

    A shallow embedding of [cupy/cuda/thrust.pyx]: the [_MemoryManager]
    bridge with its two callbacks [cupy_malloc] and [cupy_free], the
    version query [get_build_version] and the three entry points [sort],
    [lexsort] and [argsort].

    Conventions of the embedding.
    - A Python function is a computation in a state-and-exception monad:
      it maps a state to a new state and either a value or the exception
      it ends with.
    - The two callbacks are [cdef] functions with a C return type and no
      [except] clause: an exception that leaves their body cannot reach
      the C caller.  It is reported as unraisable and dropped, and the
      function returns normally, with the null pointer where it returns a
      pointer.
    - The three entry points are [cpdef ... except +], and the native
      routines they call are declared without an exception clause: a
      failure of a native routine is a C++ exception that passes through
      the body of the entry point, past the release of its locals, and
      is turned into a Python exception on the way out.
    - An address is the integer value of a pointer.  The source moves it
      between [char*], [size_t] and [intptr_t] by casts between types of
      pointer width; the casts keep the address and are not written.
    - Everything outside the file (the allocator [memory.alloc], the
      device queries, the current stream, the native backend, the constant
      [THRUST_VERSION]) is a parameter, collected in the class [External];
      what the file asks of them is recorded, in order, in a trace. *)

From stdpp Require Import gmap strings list fin_maps.
From Stdlib Require Import ZArith Lia Permutation.

Local Open Scope Z_scope.

(** ** Exceptions and results *)

Inductive exception :=
| RuntimeError (msg : string)
| NotImplementedError (msg : string)
| TypeError (msg : string)
| KeyError (key : Z)
| ExternalError (kind msg : string).

Inductive result (A : Type) :=
| Ok (a : A)
| Raise (e : exception).
Arguments Ok {A} a.
Arguments Raise {A} e.

(** ** Type descriptors *)

(** The fourteen numpy scalar types the three entry points compare the
    descriptor with. *)
Module numpy.
Inductive scalar_type :=
| int8 | uint8 | int16 | uint16 | int32 | uint32 | int64 | uint64
| float16 | float32 | float64 | complex64 | complex128 | bool.
End numpy.

Abbreviation TypeTag := numpy.scalar_type.

(** The element types the backend templates are instantiated at. *)
Module common.
Inductive ctype :=
| cpy_byte | cpy_ubyte | cpy_short | cpy_ushort | cpy_int | cpy_uint
| cpy_long | cpy_ulong | cpy_float | cpy_double
| cpy_complex64 | cpy_complex128 | cpy_bool.
End common.

#[global] Instance TypeTag_eq_dec : EqDecision TypeTag.
Proof. solve_decision. Defined.

#[global] Instance ctype_eq_dec : EqDecision common.ctype.
Proof. solve_decision. Defined.

(** A type descriptor as a caller may pass it: the descriptor of one of
    the fourteen types, or any other one, known by the text [format]
    prints for it. *)
Inductive type_descriptor :=
| Dtype (t : TypeTag)
| OtherDtype (name : string).

Definition TypeTag_name (t : TypeTag) : string :=
  match t with
  | numpy.int8 => "int8" | numpy.uint8 => "uint8"
  | numpy.int16 => "int16" | numpy.uint16 => "uint16"
  | numpy.int32 => "int32" | numpy.uint32 => "uint32"
  | numpy.int64 => "int64" | numpy.uint64 => "uint64"
  | numpy.float16 => "float16" | numpy.float32 => "float32"
  | numpy.float64 => "float64"
  | numpy.complex64 => "complex64" | numpy.complex128 => "complex128"
  | numpy.bool => "bool"
  end.

(** [dtype == numpy.t] *)
Definition dtype_eq (d : type_descriptor) (t : TypeTag) : bool :=
  match d with
  | Dtype u => bool_decide (u = t)
  | OtherDtype _ => false
  end.

(** ['{}'.format(dtype)] *)
Definition format (d : type_descriptor) : string :=
  match d with
  | Dtype t => TypeTag_name t
  | OtherDtype name => name
  end.

(** ** Allocations, the backend and the trace *)

(** [memory.MemoryPointer]: the object [memory.alloc] returns.  The file
    reads its [ptr] only. *)
Record MemoryPointer := { ptr : Z; nbytes : Z }.

#[global] Instance MemoryPointer_eq_dec : EqDecision MemoryPointer.
Proof. solve_decision. Defined.

(** The functions declared [extern] from [cupy_thrust.h]: a template at an
    element type, or the function for half precision. *)
Inductive instantiation :=
| Template (T : common.ctype)
| Fp16.

#[global] Instance instantiation_eq_dec : EqDecision instantiation.
Proof. solve_decision. Defined.

(** One call of the backend, with the arguments the entry point passes
    (the bridge, its last argument, is the state the call runs in). *)
Inductive backend_call :=
| _sort (i : instantiation) (data_start keys_start : Z) (shape : list Z)
        (strm : Z)
| _lexsort (i : instantiation) (idx_ptr keys_ptr k n strm : Z)
| _argsort (i : instantiation) (idx_start data_start keys_start : Z)
           (shape : list Z) (strm : Z).

(** The three functions for half precision. *)
Abbreviation _sort_fp16 := (_sort Fp16).
Abbreviation _lexsort_fp16 := (_lexsort Fp16).
Abbreviation _argsort_fp16 := (_argsort Fp16).

(** What a backend call does with the bridge: it returns, it fails (a C++
    exception, given here as the Python exception it is turned into), or
    it asks the bridge for memory or gives an address back and goes on
    with what the callback returned. *)
Inductive backend_prog :=
| Return
| Throw (e : exception)
| Malloc (size : Z) (k : result Z -> backend_prog)
| Free (p : Z) (k : result unit -> backend_prog).

Inductive event :=
| EvAlloc (size : Z) (r : result MemoryPointer)
| EvRelease (m : MemoryPointer)
| EvUnraisable (e : exception)
| EvStream
| EvComputeCapability
| EvRuntimeVersion
| EvBackend (c : backend_call).

(** ** External collaborators *)

Class External := {
  (** state of the host allocator *)
  Heap : Type;
  (** [memory.alloc(size)] *)
  memory_alloc : Heap -> Z -> Heap * result MemoryPointer;
  (** Modelled from the spec: the allocator takes an allocation back when
      its last owner lets go of it (the module [cupy.cuda.memory], which
      defines the allocation objects, is outside this file). *)
  memory_release : Heap -> MemoryPointer -> Heap;
  (** [int(device.get_compute_capability())] *)
  compute_capability : Z;
  (** [runtime.runtimeGetVersion()] *)
  runtime_version : Z;
  (** [stream.get_current_stream_ptr()] *)
  current_stream_ptr : Z;
  (** the native routines of [cupy_thrust.h] *)
  backend : backend_call -> backend_prog;
  (** the macro [THRUST_VERSION] of the Thrust headers *)
  THRUST_VERSION : Z
}.

(** ** The state-and-exception monad *)

Definition M (S A : Type) : Type := S -> S * result A.

Definition ret {S A} (a : A) : M S A := fun s => (s, Ok a).

Definition raise {S A} (e : exception) : M S A := fun s => (s, Raise e).

Definition bind {S A B} (c : M S A) (k : A -> M S B) : M S B :=
  fun s =>
    match c s with
    | (s', Ok a) => k a s'
    | (s', Raise e) => (s', Raise e)
    end.

Declare Scope prog_scope.
Delimit Scope prog_scope with prog.
Notation "x <- c ;; k" := (bind c (fun x => k))
  (at level 100, c at next level, right associativity) : prog_scope.
Notation "c ;; k" := (bind c (fun _ => k))
  (at level 100, right associativity) : prog_scope.

(** Python's [a or b]: [b] is evaluated only when [a] is false. *)
Definition or_else {S} (a b : M S bool) : M S bool :=
  (x <- a ;; if (x : bool) then ret true else b)%prog.

Section Thrust.

Context `{External}.

(** ** The world outside the file *)

Record World := { heap : Heap; trace : list event }.

(** The world after some more events. *)
Definition extend (w : World) (evs : list event) : World :=
  {| heap := heap w; trace := trace w ++ evs |}.

Definition emit (e : event) : M World unit :=
  fun w => (extend w [e], Ok tt).

(** [memory.alloc(size)]: one call of the external allocator. *)
Definition memory_alloc_call (size : Z) : M World MemoryPointer :=
  fun w =>
    let '(h, r) := memory_alloc (heap w) size in
    ({| heap := h; trace := trace w ++ [EvAlloc size r] |}, r).

(** Modelled from the spec: an allocation object nobody refers to any more
    is released, which returns its memory to the external allocator's
    accounting (the module [cupy.cuda.memory], which defines the
    allocation objects, is outside this file). *)
Definition release (m : MemoryPointer) (w : World) : World :=
  {| heap := memory_release (heap w) m; trace := trace w ++ [EvRelease m] |}.

Definition get_current_stream_ptr : M World Z :=
  (emit EvStream ;; ret current_stream_ptr)%prog.

Definition get_compute_capability : M World Z :=
  (emit EvComputeCapability ;; ret compute_capability)%prog.

Definition runtimeGetVersion : M World Z :=
  (emit EvRuntimeVersion ;; ret runtime_version)%prog.

(** ** Memory management *)

(** [cdef class _MemoryManager]: a dict from address to allocation;
    [__init__] makes it empty. *)
Record _MemoryManager := { memory : gmap Z MemoryPointer }.

Definition _MemoryManager_init : _MemoryManager := {| memory := ∅ |}.

(** The state a callback runs in: the bridge it is bound to (its [void *m]
    argument) and the world. *)
Definition BridgeState : Type := _MemoryManager * World.

Definition in_world {A} (c : M World A) : M BridgeState A :=
  fun s =>
    let '(w, r) := c (snd s) in ((fst s, w), r).

(** [mm.memory[key] = value].  A value the key held before loses its last
    reference. *)
Definition setitem (key : Z) (value : MemoryPointer) : M BridgeState unit :=
  fun s =>
    let mm := fst s in
    let w := match memory mm !! key with
             | Some old => release old (snd s)
             | None => snd s
             end in
    (({| memory := <[key := value]> (memory mm) |}, w), Ok tt).

(** [del mm.memory[key]]: [KeyError] when the key is absent; otherwise the
    entry goes and its value loses its last reference. *)
Definition delitem (key : Z) : M BridgeState unit :=
  fun s =>
    let mm := fst s in
    match memory mm !! key with
    | Some old =>
        (({| memory := delete key (memory mm) |}, release old (snd s)), Ok tt)
    | None => (s, Raise (KeyError key))
    end.

(** A [cdef] function with a C return type and no [except] clause: an
    exception that leaves its body is reported as unraisable and dropped,
    and the function returns [default] to its C caller (the null pointer
    for a pointer, nothing for [void]). *)
Definition cdef_noexcept {A} (default : A) (body : M BridgeState A)
    : M BridgeState A :=
  fun s =>
    match body s with
    | (s', Ok a) => (s', Ok a)
    | (s', Raise e) =>
        ((fst s', extend (snd s') [EvUnraisable e]), Ok default)
    end.

(** The statements of [cupy_malloc]. *)
Definition cupy_malloc_body (size : Z) : M BridgeState Z :=
  if size =? 0 then ret 0
  else
    (mem <- in_world (memory_alloc_call size) ;;
     setitem (ptr mem) mem ;;
     ret (ptr mem))%prog.

(** [cdef public char* cupy_malloc(void *m, size_t size) with gil] *)
Definition cupy_malloc (size : Z) : M BridgeState Z :=
  cdef_noexcept 0 (cupy_malloc_body size).

(** The statements of [cupy_free]. *)
Definition cupy_free_body (ptr : Z) : M BridgeState unit :=
  if ptr =? 0 then ret tt
  else delitem ptr.

(** [cdef public void cupy_free(void *m, char* ptr) with gil] *)
Definition cupy_free (ptr : Z) : M BridgeState unit :=
  cdef_noexcept tt (cupy_free_body ptr).

(** ** The backend at work *)

(** A backend call runs its callbacks on the bridge it was given. *)
Fixpoint run_backend (p : backend_prog) : M BridgeState unit :=
  match p with
  | Return => ret tt
  | Throw e => raise e
  | Malloc size k =>
      fun s => let '(s', r) := cupy_malloc size s in run_backend (k r) s'
  | Free p k =>
      fun s => let '(s', r) := cupy_free p s in run_backend (k r) s'
  end.

(** How the body of an entry point can end: it returns, a Python
    exception was raised in it, or a C++ exception of a native routine
    passes through it (given as the Python exception it is turned
    into). *)
Inductive ending (A : Type) :=
| Returns (a : A)
| Raises (e : exception)
| Throws (e : exception).
Arguments Returns {A} a.
Arguments Raises {A} e.
Arguments Throws {A} e.

(** The body of an entry point, running with its local bridge. *)
Definition Body (A : Type) : Type := BridgeState -> BridgeState * ending A.

Definition body_bind {A B} (c : Body A) (k : A -> Body B) : Body B :=
  fun s =>
    match c s with
    | (s', Returns a) => k a s'
    | (s', Raises e) => (s', Raises e)
    | (s', Throws e) => (s', Throws e)
    end.

(** Python statements in the body of an entry point. *)
Definition python {A} (c : M BridgeState A) : Body A :=
  fun s =>
    match c s with
    | (s', Ok a) => (s', Returns a)
    | (s', Raise e) => (s', Raises e)
    end.

(** A call of one of the [extern] functions with the bridge as its last
    argument.  The functions are declared without an exception clause: a
    failure of theirs is not a Python exception of the body. *)
Definition call (c : backend_call) : Body unit :=
  fun s =>
    match run_backend (backend c)
            (fst s, extend (snd s) [EvBackend c]) with
    | (s', Ok a) => (s', Returns a)
    | (s', Raise e) => (s', Throws e)
    end.

(** The destruction of a bridge: its dict goes, and every allocation
    still in it loses its last reference.  (The releases are written in
    the order of the keys; which allocations are released matters below,
    not their order.) *)
Definition _MemoryManager_dealloc (mm : _MemoryManager) (w : World) : World :=
  foldl (fun w m => release m w) w (map_to_list (memory mm)).*2.

(** The bridge [mem_obj] is a local of the entry point.  Locals are
    released when the body returns and when a Python exception is raised
    in it.  A C++ exception passes through the body without that: the
    bridge is not destroyed and keeps what it holds, and [except +] gives
    the caller the Python exception. *)
Definition with_bridge {A} (mem_obj : _MemoryManager) (body : Body A)
    : M World A :=
  fun w =>
    match body (mem_obj, w) with
    | (s, Returns a) => (_MemoryManager_dealloc (fst s) (snd s), Ok a)
    | (s, Raises e) => (_MemoryManager_dealloc (fst s) (snd s), Raise e)
    | (s, Throws e) => (snd s, Raise e)
    end.

Declare Scope body_scope.
Delimit Scope body_scope with body.
Notation "c ;; k" := (body_bind c (fun _ => k))
  (at level 100, right associativity) : body_scope.
Arguments with_bridge {A} mem_obj body%_body.
Arguments python {A} c%_prog.

(** ** Python interface *)

Definition get_build_version : M World Z := ret THRUST_VERSION.

Definition fp16_unsupported : string :=
  "either the GPU or the CUDA Toolkit does not support fp16".

Definition sort (dtype : type_descriptor) (data_start keys_start : Z)
    (shape : list Z) : M World unit :=
  (let _data_start := data_start in
   let _keys_start := keys_start in
   _strm <- get_current_stream_ptr ;;
   with_bridge _MemoryManager_init
     (python
        (if dtype_eq dtype numpy.float16 then
           low <- in_world
                    (or_else (cc <- get_compute_capability ;; ret (cc <? 53))
                             (v <- runtimeGetVersion ;; ret (v <? 9020))) ;;
           if (low : bool) then raise (RuntimeError fp16_unsupported)
           else ret tt
         else ret tt) ;;
      if dtype_eq dtype numpy.int8 then
        call (_sort (Template common.cpy_byte) _data_start _keys_start shape _strm)
      else if dtype_eq dtype numpy.uint8 then
        call (_sort (Template common.cpy_ubyte) _data_start _keys_start shape _strm)
      else if dtype_eq dtype numpy.int16 then
        call (_sort (Template common.cpy_short) _data_start _keys_start shape _strm)
      else if dtype_eq dtype numpy.uint16 then
        call (_sort (Template common.cpy_ushort) _data_start _keys_start shape _strm)
      else if dtype_eq dtype numpy.int32 then
        call (_sort (Template common.cpy_int) _data_start _keys_start shape _strm)
      else if dtype_eq dtype numpy.uint32 then
        call (_sort (Template common.cpy_uint) _data_start _keys_start shape _strm)
      else if dtype_eq dtype numpy.int64 then
        call (_sort (Template common.cpy_long) _data_start _keys_start shape _strm)
      else if dtype_eq dtype numpy.uint64 then
        call (_sort (Template common.cpy_ulong) _data_start _keys_start shape _strm)
      else if dtype_eq dtype numpy.float16 then
        call (_sort_fp16 _data_start _keys_start shape _strm)
      else if dtype_eq dtype numpy.float32 then
        call (_sort (Template common.cpy_float) _data_start _keys_start shape _strm)
      else if dtype_eq dtype numpy.float64 then
        call (_sort (Template common.cpy_double) _data_start _keys_start shape _strm)
      else if dtype_eq dtype numpy.complex64 then
        call (_sort (Template common.cpy_complex64) _data_start _keys_start shape _strm)
      else if dtype_eq dtype numpy.complex128 then
        call (_sort (Template common.cpy_complex128) _data_start _keys_start shape _strm)
      else if dtype_eq dtype numpy.bool then
        call (_sort (Template common.cpy_bool) _data_start _keys_start shape _strm)
      else
        python
          (raise (NotImplementedError
                    ("Sorting arrays with dtype '" +:+ format dtype
                     +:+ "' is not supported")))))%prog.

Definition lexsort (dtype : type_descriptor) (idx_start keys_start k n : Z)
    : M World unit :=
  (let idx_ptr := idx_start in
   let keys_ptr := keys_start in
   _strm <- get_current_stream_ptr ;;
   with_bridge _MemoryManager_init
     (python
        (if dtype_eq dtype numpy.float16 then
           low <- in_world
                    (or_else (cc <- get_compute_capability ;; ret (cc <? 53))
                             (v <- runtimeGetVersion ;; ret (v <? 9020))) ;;
           if (low : bool) then raise (RuntimeError fp16_unsupported)
           else ret tt
         else ret tt) ;;
      if dtype_eq dtype numpy.int8 then
        call (_lexsort (Template common.cpy_byte) idx_ptr keys_ptr k n _strm)
      else if dtype_eq dtype numpy.uint8 then
        call (_lexsort (Template common.cpy_ubyte) idx_ptr keys_ptr k n _strm)
      else if dtype_eq dtype numpy.int16 then
        call (_lexsort (Template common.cpy_short) idx_ptr keys_ptr k n _strm)
      else if dtype_eq dtype numpy.uint16 then
        call (_lexsort (Template common.cpy_ushort) idx_ptr keys_ptr k n _strm)
      else if dtype_eq dtype numpy.int32 then
        call (_lexsort (Template common.cpy_int) idx_ptr keys_ptr k n _strm)
      else if dtype_eq dtype numpy.uint32 then
        call (_lexsort (Template common.cpy_uint) idx_ptr keys_ptr k n _strm)
      else if dtype_eq dtype numpy.int64 then
        call (_lexsort (Template common.cpy_long) idx_ptr keys_ptr k n _strm)
      else if dtype_eq dtype numpy.uint64 then
        call (_lexsort (Template common.cpy_ulong) idx_ptr keys_ptr k n _strm)
      else if dtype_eq dtype numpy.float16 then
        call (_lexsort_fp16 idx_ptr keys_ptr k n _strm)
      else if dtype_eq dtype numpy.float32 then
        call (_lexsort (Template common.cpy_float) idx_ptr keys_ptr k n _strm)
      else if dtype_eq dtype numpy.float64 then
        call (_lexsort (Template common.cpy_double) idx_ptr keys_ptr k n _strm)
      else if dtype_eq dtype numpy.complex64 then
        call (_lexsort (Template common.cpy_complex64) idx_ptr keys_ptr k n _strm)
      else if dtype_eq dtype numpy.complex128 then
        call (_lexsort (Template common.cpy_complex128) idx_ptr keys_ptr k n _strm)
      else if dtype_eq dtype numpy.bool then
        call (_lexsort (Template common.cpy_bool) idx_ptr keys_ptr k n _strm)
      else
        python
          (raise (TypeError
                    ("Sorting keys with dtype '" +:+ format dtype
                     +:+ "' is not supported")))))%prog.

Definition argsort (dtype : type_descriptor)
    (idx_start data_start keys_start : Z) (shape : list Z) : M World unit :=
  (let _idx_start := idx_start in
   let _data_start := data_start in
   let _keys_start := keys_start in
   _strm <- get_current_stream_ptr ;;
   with_bridge _MemoryManager_init
     (python
        (if dtype_eq dtype numpy.float16 then
           low <- in_world
                    (or_else (cc <- get_compute_capability ;; ret (cc <? 53))
                             (v <- runtimeGetVersion ;; ret (v <? 9020))) ;;
           if (low : bool) then raise (RuntimeError fp16_unsupported)
           else ret tt
         else ret tt) ;;
      if dtype_eq dtype numpy.int8 then
        call (_argsort (Template common.cpy_byte)
                _idx_start _data_start _keys_start shape _strm)
      else if dtype_eq dtype numpy.uint8 then
        call (_argsort (Template common.cpy_ubyte)
                _idx_start _data_start _keys_start shape _strm)
      else if dtype_eq dtype numpy.int16 then
        call (_argsort (Template common.cpy_short)
                _idx_start _data_start _keys_start shape _strm)
      else if dtype_eq dtype numpy.uint16 then
        call (_argsort (Template common.cpy_ushort)
                _idx_start _data_start _keys_start shape _strm)
      else if dtype_eq dtype numpy.int32 then
        call (_argsort (Template common.cpy_int)
                _idx_start _data_start _keys_start shape _strm)
      else if dtype_eq dtype numpy.uint32 then
        call (_argsort (Template common.cpy_uint)
                _idx_start _data_start _keys_start shape _strm)
      else if dtype_eq dtype numpy.int64 then
        call (_argsort (Template common.cpy_long)
                _idx_start _data_start _keys_start shape _strm)
      else if dtype_eq dtype numpy.uint64 then
        call (_argsort (Template common.cpy_ulong)
                _idx_start _data_start _keys_start shape _strm)
      else if dtype_eq dtype numpy.float16 then
        call (_argsort_fp16
                _idx_start _data_start _keys_start shape _strm)
      else if dtype_eq dtype numpy.float32 then
        call (_argsort (Template common.cpy_float)
                _idx_start _data_start _keys_start shape _strm)
      else if dtype_eq dtype numpy.float64 then
        call (_argsort (Template common.cpy_double)
                _idx_start _data_start _keys_start shape _strm)
      else if dtype_eq dtype numpy.complex64 then
        call (_argsort (Template common.cpy_complex64)
                _idx_start _data_start _keys_start shape _strm)
      else if dtype_eq dtype numpy.complex128 then
        call (_argsort (Template common.cpy_complex128)
                _idx_start _data_start _keys_start shape _strm)
      else if dtype_eq dtype numpy.bool then
        call (_argsort (Template common.cpy_bool)
                _idx_start _data_start _keys_start shape _strm)
      else
        python
          (raise (NotImplementedError
                    ("Sorting arrays with dtype '" +:+ format dtype
                     +:+ "' is not supported")))))%prog.

End Thrust.

Arguments World {_}.
Arguments BridgeState {_}.

(** ** Calls of the three entry points *)

Inductive entry_call :=
| call_sort (dtype : type_descriptor) (data_start keys_start : Z)
            (shape : list Z)
| call_lexsort (dtype : type_descriptor) (idx_start keys_start k n : Z)
| call_argsort (dtype : type_descriptor)
               (idx_start data_start keys_start : Z) (shape : list Z).

Definition entry_dtype (c : entry_call) : type_descriptor :=
  match c with
  | call_sort d _ _ _ | call_lexsort d _ _ _ _ | call_argsort d _ _ _ _ => d
  end.

Definition run_entry `{External} (c : entry_call) : M World unit :=
  match c with
  | call_sort d data_start keys_start shape =>
      sort d data_start keys_start shape
  | call_lexsort d idx_start keys_start k n =>
      lexsort d idx_start keys_start k n
  | call_argsort d idx_start data_start keys_start shape =>
      argsort d idx_start data_start keys_start shape
  end.

(** The error the [else] of an entry point raises. *)
Definition unsupported_error (c : entry_call) : exception :=
  match c with
  | call_sort d _ _ _ | call_argsort d _ _ _ _ =>
      NotImplementedError
        ("Sorting arrays with dtype '" +:+ format d +:+ "' is not supported")
  | call_lexsort d _ _ _ _ =>
      TypeError
        ("Sorting keys with dtype '" +:+ format d +:+ "' is not supported")
  end.

(** The instantiation the branch of a tag names, in each of the three
    chains. *)
Definition instantiation_of (t : TypeTag) : instantiation :=
  match t with
  | numpy.int8 => Template common.cpy_byte
  | numpy.uint8 => Template common.cpy_ubyte
  | numpy.int16 => Template common.cpy_short
  | numpy.uint16 => Template common.cpy_ushort
  | numpy.int32 => Template common.cpy_int
  | numpy.uint32 => Template common.cpy_uint
  | numpy.int64 => Template common.cpy_long
  | numpy.uint64 => Template common.cpy_ulong
  | numpy.float16 => Fp16
  | numpy.float32 => Template common.cpy_float
  | numpy.float64 => Template common.cpy_double
  | numpy.complex64 => Template common.cpy_complex64
  | numpy.complex128 => Template common.cpy_complex128
  | numpy.bool => Template common.cpy_bool
  end.

(** The backend call an entry-point call makes when it dispatches at the
    instantiation [i]. *)
Definition dispatched `{External} (c : entry_call) (i : instantiation)
    : backend_call :=
  match c with
  | call_sort _ data_start keys_start shape =>
      _sort i data_start keys_start shape current_stream_ptr
  | call_lexsort _ idx_start keys_start k n =>
      _lexsort i idx_start keys_start k n current_stream_ptr
  | call_argsort _ idx_start data_start keys_start shape =>
      _argsort i idx_start data_start keys_start shape current_stream_ptr
  end.

(** ** Reading a trace *)

Definition backend_calls (t : list event) : list backend_call :=
  omap (fun e => match e with EvBackend c => Some c | _ => None end) t.

Definition allocator_calls (t : list event) : list Z :=
  omap (fun e => match e with EvAlloc size _ => Some size | _ => None end) t.

Definition allocations (t : list event) : list MemoryPointer :=
  omap (fun e => match e with EvAlloc _ (Ok m) => Some m | _ => None end) t.

Definition releases (t : list event) : list MemoryPointer :=
  omap (fun e => match e with EvRelease m => Some m | _ => None end) t.

Definition is_capability_query (e : event) : bool :=
  match e with
  | EvComputeCapability | EvRuntimeVersion => true
  | _ => false
  end.

Definition capability_queries (t : list event) : list event :=
  List.filter is_capability_query t.

(** The events the bridge itself gives rise to. *)
Definition is_memory_event (e : event) : bool :=
  match e with
  | EvAlloc _ _ | EvRelease _ | EvUnraisable _ => true
  | _ => false
  end.

(** The allocations a bridge holds. *)
Definition held (mm : _MemoryManager) : list MemoryPointer :=
  (map_to_list (memory mm)).*2.

(** ** Sequences of callbacks on one bridge *)

Inductive callback :=
| do_malloc (size : Z)
| do_free (p : Z).

(** One callback as it happened: its argument, what its body gave, and the
    bridge's map before and after. *)
Inductive step :=
| malloc_step (size : Z) (r : result Z)
              (before after : gmap Z MemoryPointer)
| free_step (p : Z) (r : result unit)
            (before after : gmap Z MemoryPointer).

Definition run_callback `{External} (c : callback) (s : BridgeState)
    : BridgeState * step :=
  match c with
  | do_malloc size =>
      let '(s', r) := cupy_malloc size s in
      (s', malloc_step size r (memory (fst s)) (memory (fst s')))
  | do_free p =>
      let '(s', r) := cupy_free p s in
      (s', free_step p r (memory (fst s)) (memory (fst s')))
  end.

Fixpoint run_callbacks `{External} (cs : list callback) (s : BridgeState)
    : BridgeState * list step :=
  match cs with
  | [] => (s, [])
  | c :: cs' =>
      let '(s', st) := run_callback c s in
      let '(s'', sts) := run_callbacks cs' s' in
      (s'', st :: sts)
  end.

(** [a] came back from a [cupy_malloc] call of the history. *)
Definition returned_by_malloc (a : Z) (h : list step) : Prop :=
  ∃ size before after, malloc_step size (Ok a) before after ∈ h.

(** [a] came back from a [cupy_malloc] call for a size other than 0. *)
Definition returned_for_nonzero_size (a : Z) (h : list step) : Prop :=
  ∃ size before after,
    size ≠ 0 ∧ malloc_step size (Ok a) before after ∈ h.

(** A [cupy_free] call with [a] took the entry of [a] out of the map. *)
Definition removed_by_free (a : Z) (h : list step) : Prop :=
  ∃ r before after,
    free_step a r before after ∈ h
    ∧ is_Some (before !! a) ∧ after !! a = None.

Definition step_maps (st : step)
    : gmap Z MemoryPointer * gmap Z MemoryPointer :=
  match st with
  | malloc_step _ _ before after | free_step _ _ before after =>
      (before, after)
  end.

(** The step is a [cupy_free] call with the address [a]. *)
Definition is_free_of (a : Z) (st : step) : Prop :=
  match st with
  | free_step p _ _ _ => p = a
  | malloc_step _ _ _ _ => False
  end.

(** ** More to read off a bridge, a history and a call *)

(** Every allocation of the map is stored under its own address. *)
Definition keyed_by_address (m : gmap Z MemoryPointer) : Prop :=
  ∀ k v, m !! k = Some v -> ptr v = k.




(** The events of an entry point with the descriptor of the tag [t] before
    it reaches its chain: the query of the stream and, for [float16], the
    two queries of a gate that passes. *)
Definition entry_prelude (t : TypeTag) : list event :=
  if bool_decide (t = numpy.float16)
  then [EvStream; EvComputeCapability; EvRuntimeVersion]
  else [EvStream].

(** ** Two concrete environments *)

Definition out_of_memory : exception :=
  ExternalError "OutOfMemoryError" "out of memory".

(** A bump allocator over a pool of 1024 bytes that starts at 4096: the
    heap is the number of bytes handed out. *)
Definition pool_alloc (used size : Z) : Z * result MemoryPointer :=
  if used + size <=? 1024
  then (used + size, Ok {| ptr := 4096 + used; nbytes := size |})
  else (used, Raise out_of_memory).

(** A backend that takes two scratch buffers, gives the first back and
    returns. *)
Definition two_buffers (c : backend_call) : backend_prog :=
  Malloc 64 (fun r1 =>
  Malloc 32 (fun r2 =>
  match r1 with
  | Ok p => Free p (fun _ => Return)
  | Raise e => Throw e
  end)).

(** A device of compute capability [cc] under the runtime version [rv],
    with that allocator and that backend. *)
Definition device (cc rv : Z) : External := {|
  Heap := Z;
  memory_alloc := pool_alloc;
  memory_release := fun used _ => used;
  compute_capability := cc;
  runtime_version := rv;
  current_stream_ptr := 7;
  backend := two_buffers;
  THRUST_VERSION := 100909
|}.

(** A recent device. *)
Definition recent_device : External := device 70 11020.

(** A backend that takes a scratch buffer and then fails. *)
Definition failing_backend (c : backend_call) : backend_prog :=
  Malloc 64 (fun _ =>
  Throw (RuntimeError "radix_sort: failed on 1st step")).

(** The recent device with that backend. *)
Definition faulty_device : External := {|
  Heap := Z;
  memory_alloc := pool_alloc;
  memory_release := fun used _ => used;
  compute_capability := 70;
  runtime_version := 11020;
  current_stream_ptr := 7;
  backend := failing_backend;
  THRUST_VERSION := 100909
|}.

(** An old device: compute capability 52. *)
Definition old_device : External := device 52 11020.

Definition world_at (E : External) (h : @Heap E) (t : list event)
    : @World E :=
  {| heap := h; trace := t |}.

Definition world0 (E : External) (h : @Heap E) : @World E :=
  world_at E h [].

(** * Properties *)

(** ** Helper lemmas on the monad and on traces *)

Lemma bind_ok {S A B} (c : M S A) (k : A -> M S B) s s' a :
  c s = (s', Ok a) -> bind c k s = k a s'.
Proof. intros Hc. unfold bind. now rewrite Hc. Qed.

Lemma bind_raise {S A B} (c : M S A) (k : A -> M S B) s s' e :
  c s = (s', Raise e) -> bind c k s = (s', Raise e).
Proof. intros Hc. unfold bind. now rewrite Hc. Qed.

Lemma allocator_calls_app t1 t2 :
  allocator_calls (t1 ++ t2) = allocator_calls t1 ++ allocator_calls t2.
Proof. apply omap_app. Qed.

Lemma backend_calls_app t1 t2 :
  backend_calls (t1 ++ t2) = backend_calls t1 ++ backend_calls t2.
Proof. apply omap_app. Qed.

Lemma allocations_app t1 t2 :
  allocations (t1 ++ t2) = allocations t1 ++ allocations t2.
Proof. apply omap_app. Qed.

Lemma releases_app t1 t2 :
  releases (t1 ++ t2) = releases t1 ++ releases t2.
Proof. apply omap_app. Qed.

Lemma capability_queries_app t1 t2 :
  capability_queries (t1 ++ t2)
  = capability_queries t1 ++ capability_queries t2.
Proof. apply List.filter_app. Qed.

Section Bridge.

Context `{External}.

(** ** The two callbacks *)

(** What [cupy_malloc] does for a size other than 0, by what the allocator
    answers. *)
Lemma cupy_malloc_nonzero size mm w :
  size ≠ 0 ->
  cupy_malloc size (mm, w)
  = match memory_alloc (heap w) size with
    | (h, Ok m) =>
        let w1 := {| heap := h; trace := trace w ++ [EvAlloc size (Ok m)] |} in
        (({| memory := <[ptr m := m]> (memory mm) |},
          match memory mm !! ptr m with
          | Some old => release old w1
          | None => w1
          end), Ok (ptr m))
    | (h, Raise e) =>
        ((mm, {| heap := h;
                 trace := trace w ++ [EvAlloc size (Raise e); EvUnraisable e]
              |}),
         Ok 0)
    end.
Proof.
  intros Hsize. unfold cupy_malloc, cdef_noexcept, cupy_malloc_body.
  destruct (Z.eqb_spec size 0) as [|_]; [contradiction|].
  unfold bind, in_world, memory_alloc_call, setitem, ret. simpl.
  destruct (memory_alloc (heap w) size) as [h [m|e]]; simpl;
    [reflexivity|].
  unfold extend. simpl. now rewrite <- app_assoc.
Qed.

(** What [cupy_free] does for an address other than null, by what the map
    holds for it. *)
Lemma cupy_free_nonnull p mm w :
  p ≠ 0 ->
  cupy_free p (mm, w)
  = match memory mm !! p with
    | Some old =>
        (({| memory := delete p (memory mm) |}, release old w), Ok tt)
    | None => ((mm, extend w [EvUnraisable (KeyError p)]), Ok tt)
    end.
Proof.
  intros Hp. unfold cupy_free, cdef_noexcept, cupy_free_body.
  destruct (Z.eqb_spec p 0) as [|_]; [contradiction|].
  unfold delitem. simpl. now destruct (memory mm !! p).
Qed.

(** C1: for every bridge state, [cupy_free] with the null address returns
    and leaves the bridge and the world as they were; and with an address
    other than null that is not a key of the map it returns as well,
    without an exception, and leaves the map, and the whole bridge, as
    they were.  (The [KeyError] of its [del] statement is reported as
    unraisable and dropped; the allocator is not touched.) *)
Theorem cupy_free_null_or_unknown :
  (∀ s : BridgeState, cupy_free 0 s = (s, Ok tt))
  ∧ (∀ (mm : _MemoryManager) (w : World) (p : Z),
       p ≠ 0 -> memory mm !! p = None ->
       snd (cupy_free p (mm, w)) = Ok tt
       ∧ fst (fst (cupy_free p (mm, w))) = mm
       ∧ memory (fst (fst (cupy_free p (mm, w)))) = memory mm
       ∧ snd (fst (cupy_free p (mm, w)))
         = extend w [EvUnraisable (KeyError p)]).
Proof.
  split; [reflexivity|].
  intros mm w p Hp Hnone. rewrite cupy_free_nonnull by assumption.
  rewrite Hnone. simpl. auto.
Qed.

(** C5: for every bridge state, [cupy_malloc] with size 0 returns the null
    address and leaves the whole state as it was: the map of the bridge,
    and the world with its trace, to which a call of the external
    allocator would have added an event. *)
Theorem cupy_malloc_zero (mm : _MemoryManager) (w : World) :
  cupy_malloc 0 (mm, w) = ((mm, w), Ok 0)
  ∧ allocator_calls (trace (snd (fst (cupy_malloc 0 (mm, w)))))
    = allocator_calls (trace w).
Proof. split; reflexivity. Qed.

(** C6: for every bridge state and every size above 0, [cupy_malloc] calls
    the external allocator once, with that size; when the allocator
    returns an allocation, the map of the bridge becomes the old map with
    the allocation stored under its address, and the call returns exactly
    that address, the key just written. *)
Theorem cupy_malloc_records (mm : _MemoryManager) (w : World) (size : Z) :
  size > 0 ->
  let s' := fst (cupy_malloc size (mm, w)) in
  allocator_calls (trace (snd s')) = allocator_calls (trace w) ++ [size]
  ∧ ∀ h m, memory_alloc (heap w) size = (h, Ok m) ->
      snd (cupy_malloc size (mm, w)) = Ok (ptr m)
      ∧ memory (fst s') = <[ptr m := m]> (memory mm)
      ∧ memory (fst s') !! ptr m = Some m.
Proof.
  intros Hsize s'. subst s'.
  rewrite cupy_malloc_nonzero by lia.
  destruct (memory_alloc (heap w) size) as [h [m|e]] eqn:Halloc; simpl.
  - split.
    + destruct (memory mm !! ptr m); simpl;
        rewrite ?allocator_calls_app; simpl; now rewrite ?app_nil_r.
    + intros h' m' [= -> ->]. split; [reflexivity|].
      split; [reflexivity|]. apply lookup_insert_eq.
  - split; [|discriminate].
    rewrite allocator_calls_app. reflexivity.
Qed.

(** C10, as the code has it: for every size above 0, when the external
    allocator raises, [cupy_malloc] does not end with that exception: the
    exception, as the allocator raised it, is reported as unraisable and
    dropped, and the call returns the null address.  The allocator was
    called once and not again, and the bridge is exactly as before the
    call. *)
Theorem cupy_malloc_drops_allocator_error (mm : _MemoryManager) (w : World)
    (size : Z) (h : Heap) (e : exception) :
  size > 0 ->
  memory_alloc (heap w) size = (h, Raise e) ->
  cupy_malloc size (mm, w)
  = ((mm, {| heap := h;
             trace := trace w ++ [EvAlloc size (Raise e); EvUnraisable e] |}),
     Ok 0)
  ∧ allocator_calls (trace (snd (fst (cupy_malloc size (mm, w)))))
    = allocator_calls (trace w) ++ [size].
Proof.
  intros Hsize Halloc. rewrite cupy_malloc_nonzero by lia.
  rewrite Halloc. simpl. split; [reflexivity|].
  rewrite allocator_calls_app. reflexivity.
Qed.

(** C9: [get_build_version] returns [THRUST_VERSION] and leaves the world
    as it was, whatever the world; so it never raises, and two calls, one
    after the other or in different worlds, return the same integer. *)
Theorem get_build_version_pure (w w' : World) :
  get_build_version w = (w, Ok THRUST_VERSION)
  ∧ snd (get_build_version w) = snd (get_build_version w')
  ∧ (x <- get_build_version ;; y <- get_build_version ;; ret (x, y))%prog w
    = (w, Ok (THRUST_VERSION, THRUST_VERSION)).
Proof. repeat split. Qed.

End Bridge.

Section EntryPoints.

Context `{External}.

Lemma extend_extend (w : World) evs1 evs2 :
  extend (extend w evs1) evs2 = extend w (evs1 ++ evs2).
Proof. unfold extend. simpl. now rewrite app_assoc. Qed.

(** A descriptor that matches none of the fourteen types: the chain falls
    through to its [else]. *)
Lemma run_entry_unsupported (c : entry_call) (w : World) :
  (∀ t, dtype_eq (entry_dtype c) t = false) ->
  run_entry c w = (extend w [EvStream], Raise (unsupported_error c)).
Proof.
  intros Hnone.
  destruct c as [d ? ? ?|d ? ? ? ?|d ? ? ? ?]; simpl in Hnone;
    (destruct d as [t|name];
     [specialize (Hnone t); simpl in Hnone;
      rewrite bool_decide_eq_false in Hnone; congruence|]);
    reflexivity.
Qed.

(** A tag other than [float16]: no gate, and the branch of the tag. *)
Lemma run_entry_plain (c : entry_call) (t : TypeTag) (w : World) :
  entry_dtype c = Dtype t -> t ≠ numpy.float16 ->
  run_entry c w
  = with_bridge _MemoryManager_init
      (call (dispatched c (instantiation_of t))) (extend w [EvStream]).
Proof.
  intros Hd Ht.
  destruct c as [d ? ? ?|d ? ? ? ?|d ? ? ? ?]; simpl in Hd; subst d;
    destruct t; try congruence; reflexivity.
Qed.

(** The tag [float16]: the gate, then the branch for half precision. *)
Lemma run_entry_fp16 (c : entry_call) (w : World) :
  entry_dtype c = Dtype numpy.float16 ->
  run_entry c w
  = if compute_capability <? 53 then
      (extend w [EvStream; EvComputeCapability],
       Raise (RuntimeError fp16_unsupported))
    else if runtime_version <? 9020 then
      (extend w [EvStream; EvComputeCapability; EvRuntimeVersion],
       Raise (RuntimeError fp16_unsupported))
    else
      with_bridge _MemoryManager_init (call (dispatched c Fp16))
        (extend w [EvStream; EvComputeCapability; EvRuntimeVersion]).
Proof.
  intros Hd.
  destruct c as [d ? ? ?|d ? ? ? ?|d ? ? ? ?]; simpl in Hd; subst d;
    unfold run_entry, sort, lexsort, argsort, bind, with_bridge, body_bind,
      python, in_world, or_else, get_current_stream_ptr,
      get_compute_capability, runtimeGetVersion, emit, ret, raise, bind;
    simpl; rewrite ?extend_extend; simpl;
    destruct (compute_capability <? 53); simpl;
    rewrite ?extend_extend; simpl; try reflexivity;
    destruct (runtime_version <? 9020); simpl;
    rewrite ?extend_extend; simpl; reflexivity.
Qed.

End EntryPoints.

Section BridgeEvents.

Context `{External}.

(** ** The events of the bridge *)

Lemma cupy_malloc_events size (s : BridgeState) :
  ∃ evs,
    trace (snd (fst (cupy_malloc size s))) = trace (snd s) ++ evs
    ∧ Forall (fun e => is_memory_event e = true) evs.
Proof.
  destruct s as [mm w]. destruct (decide (size = 0)) as [->|Hsize].
  { exists []. simpl. rewrite app_nil_r. split; [reflexivity|constructor]. }
  rewrite cupy_malloc_nonzero by assumption.
  destruct (memory_alloc (heap w) size) as [h [m|e]]; simpl.
  - destruct (memory mm !! ptr m) as [old|]; simpl.
    + exists [EvAlloc size (Ok m); EvRelease old].
      rewrite <- app_assoc. split; [reflexivity|repeat constructor].
    + exists [EvAlloc size (Ok m)]. split; [reflexivity|repeat constructor].
  - eexists. split; [reflexivity|repeat constructor].
Qed.

Lemma cupy_free_events p (s : BridgeState) :
  ∃ evs,
    trace (snd (fst (cupy_free p s))) = trace (snd s) ++ evs
    ∧ Forall (fun e => is_memory_event e = true) evs.
Proof.
  destruct s as [mm w]. destruct (decide (p = 0)) as [->|Hp].
  { exists []. simpl. rewrite app_nil_r. split; [reflexivity|constructor]. }
  rewrite cupy_free_nonnull by assumption.
  destruct (memory mm !! p) as [old|]; simpl.
  - exists [EvRelease old]. split; [reflexivity|repeat constructor].
  - eexists. split; [reflexivity|repeat constructor].
Qed.

Lemma run_backend_events (p : backend_prog) :
  ∀ s : BridgeState,
    ∃ evs,
      trace (snd (fst (run_backend p s))) = trace (snd s) ++ evs
      ∧ Forall (fun e => is_memory_event e = true) evs.
Proof.
  induction p as [|e|size k IH|a k IH]; intros s; simpl.
  - exists []. rewrite app_nil_r. split; [reflexivity|constructor].
  - exists []. rewrite app_nil_r. split; [reflexivity|constructor].
  - destruct (cupy_malloc_events size s) as (evs1 & Ht1 & Hm1).
    destruct (cupy_malloc size s) as [s1 r]. simpl in Ht1.
    destruct (IH r s1) as (evs2 & Ht2 & Hm2).
    exists (evs1 ++ evs2). rewrite Ht2, Ht1, <- app_assoc.
    split; [reflexivity|now apply Forall_app].
  - destruct (cupy_free_events a s) as (evs1 & Ht1 & Hm1).
    destruct (cupy_free a s) as [s1 r]. simpl in Ht1.
    destruct (IH r s1) as (evs2 & Ht2 & Hm2).
    exists (evs1 ++ evs2). rewrite Ht2, Ht1, <- app_assoc.
    split; [reflexivity|now apply Forall_app].
Qed.

(** Destroying a bridge releases what it holds, and does nothing else. *)
Lemma dealloc_trace (mm : _MemoryManager) (w : World) :
  trace (_MemoryManager_dealloc mm w) = trace w ++ map EvRelease (held mm).
Proof.
  unfold _MemoryManager_dealloc, held.
  generalize ((map_to_list (memory mm)).*2). intros l. revert w.
  induction l as [|m l IH]; intros w; simpl.
  - now rewrite app_nil_r.
  - rewrite IH. simpl. now rewrite <- app_assoc.
Qed.

Lemma releases_map_release (l : list MemoryPointer) :
  releases (map EvRelease l) = l.
Proof. induction l as [|m l IH]; simpl; [reflexivity|]. now f_equal. Qed.

Lemma memory_events_map_release (l : list MemoryPointer) :
  Forall (fun e => is_memory_event e = true) (map EvRelease l).
Proof. induction l; simpl; constructor; auto. Qed.

(** A backend call in a bridge of its own: when the backend returns, the
    bridge is destroyed; when it fails, the world is the one it left. *)
Lemma with_bridge_call_run (c : backend_call) (w : World) :
  with_bridge _MemoryManager_init (call c) w
  = match run_backend (backend c)
            (_MemoryManager_init, extend w [EvBackend c]) with
    | (s, Ok a) => (_MemoryManager_dealloc (fst s) (snd s), Ok a)
    | (s, Raise e) => (snd s, Raise e)
    end.
Proof.
  unfold with_bridge, call. simpl.
  now destruct (run_backend (backend c) _) as [s [a|e]].
Qed.

(** A backend call in a bridge made for it: after the event of the call,
    the trace grows by events of the bridge only. *)
Lemma with_bridge_call (c : backend_call) (w : World) :
  ∃ evs,
    trace (fst (with_bridge _MemoryManager_init (call c) w))
    = trace w ++ EvBackend c :: evs
    ∧ Forall (fun e => is_memory_event e = true) evs.
Proof.
  rewrite with_bridge_call_run.
  destruct (run_backend_events (backend c)
              (_MemoryManager_init, extend w [EvBackend c]))
    as (evs & Ht & Hm).
  destruct (run_backend (backend c) _) as [[mm w'] [a|e]]; simpl in *.
  - exists (evs ++ map EvRelease (held mm)).
    rewrite dealloc_trace, Ht, <- !app_assoc. simpl.
    split; [reflexivity|].
    apply Forall_app. split; [assumption|apply memory_events_map_release].
  - exists evs. rewrite Ht, <- app_assoc. split; [reflexivity|assumption].
Qed.

End BridgeEvents.

Section Dispatch.

Context `{External}.

Lemma memory_events_no_backend_call evs :
  Forall (fun e => is_memory_event e = true) evs -> backend_calls evs = [].
Proof.
  induction 1 as [|e evs He _ IH]; [reflexivity|].
  destruct e; simpl in *; try discriminate; exact IH.
Qed.

Lemma memory_events_no_query evs :
  Forall (fun e => is_memory_event e = true) evs ->
  capability_queries evs = [].
Proof.
  induction 1 as [|e evs He _ IH]; [reflexivity|].
  destruct e; simpl in *; try discriminate; exact IH.
Qed.

(** The trace of an entry point that reaches the backend: the events
    [pre] of its first steps, the backend call, then events of the bridge
    only. *)
Lemma dispatch_trace (c : backend_call) (w : World) (pre : list event) :
  ∃ evs,
    trace (fst (with_bridge _MemoryManager_init (call c) (extend w pre)))
    = trace w ++ pre ++ EvBackend c :: evs
    ∧ Forall (fun e => is_memory_event e = true) evs.
Proof.
  destruct (with_bridge_call c (extend w pre)) as (evs & Ht & Hm).
  exists evs. rewrite Ht. simpl. now rewrite <- app_assoc.
Qed.

Lemma instantiation_of_inj : Inj (=) (=) instantiation_of.
Proof. intros t u Htu. destruct t, u; simpl in Htu; congruence. Qed.

Lemma instantiation_of_surj : Surj (=) instantiation_of.
Proof.
  intros [T|].
  - destruct T;
      [ exists numpy.int8 | exists numpy.uint8 | exists numpy.int16
      | exists numpy.uint16 | exists numpy.int32 | exists numpy.uint32
      | exists numpy.int64 | exists numpy.uint64 | exists numpy.float32
      | exists numpy.float64 | exists numpy.complex64
      | exists numpy.complex128 | exists numpy.bool ]; reflexivity.
  - exists numpy.float16. reflexivity.
Qed.

(** C2, as the code has it: the map from the fourteen tags to the
    instantiations is one-to-one and onto, and a call of [sort], [lexsort]
    or [argsort] with the descriptor of a tag makes exactly one backend
    call, at the instantiation of that tag and with the arguments it was
    given; for [float16] this holds when the device has compute capability
    at least 53 and the runtime version is at least 9020. *)
Theorem dispatch_by_tag (c : entry_call) (t : TypeTag) (w : World) :
  entry_dtype c = Dtype t ->
  (t = numpy.float16 ->
   53 <= compute_capability ∧ 9020 <= runtime_version) ->
  backend_calls (trace (fst (run_entry c w)))
  = backend_calls (trace w) ++ [dispatched c (instantiation_of t)]
  ∧ Inj (=) (=) instantiation_of
  ∧ Surj (=) instantiation_of.
Proof.
  intros Hd Hgate.
  split; [|split; [apply instantiation_of_inj|apply instantiation_of_surj]].
  destruct (decide (t = numpy.float16)) as [->|Ht].
  - destruct (Hgate eq_refl) as [Hcc Hrv].
    rewrite (run_entry_fp16 c w Hd).
    destruct (Z.ltb_spec compute_capability 53); [lia|].
    destruct (Z.ltb_spec runtime_version 9020); [lia|].
    destruct (dispatch_trace (dispatched c Fp16) w
                [EvStream; EvComputeCapability; EvRuntimeVersion])
      as (evs & Ht & Hm).
    rewrite Ht, !backend_calls_app. simpl.
    now rewrite (memory_events_no_backend_call evs Hm).
  - rewrite (run_entry_plain c t w Hd Ht).
    destruct (dispatch_trace (dispatched c (instantiation_of t)) w [EvStream])
      as (evs & Htr & Hm).
    rewrite Htr, !backend_calls_app. simpl.
    now rewrite (memory_events_no_backend_call evs Hm).
Qed.

(** C3: a call of [sort], [lexsort] or [argsort] with the [float16]
    descriptor on a device of compute capability below 53, or with a
    runtime version below 9020, ends with [RuntimeError] and the message
    that the GPU or the CUDA Toolkit does not support fp16; no backend
    call and no call of the allocator was made.  And a call whose
    descriptor is not [float16] makes neither of the two queries. *)
Theorem fp16_gate (c : entry_call) (w : World) :
  (dtype_eq (entry_dtype c) numpy.float16 = true ->
   compute_capability < 53 ∨ runtime_version < 9020 ->
   snd (run_entry c w) = Raise (RuntimeError fp16_unsupported)
   ∧ backend_calls (trace (fst (run_entry c w))) = backend_calls (trace w)
   ∧ allocator_calls (trace (fst (run_entry c w)))
     = allocator_calls (trace w))
  ∧ (dtype_eq (entry_dtype c) numpy.float16 = false ->
     capability_queries (trace (fst (run_entry c w)))
     = capability_queries (trace w)).
Proof.
  split.
  - intros Hd Hlow.
    assert (entry_dtype c = Dtype numpy.float16) as Hd'.
    { destruct (entry_dtype c) as [t|name]; simpl in Hd; [|discriminate].
      apply bool_decide_eq_true in Hd. now subst t. }
    rewrite (run_entry_fp16 c w Hd').
    destruct (Z.ltb_spec compute_capability 53); simpl.
    + rewrite backend_calls_app, allocator_calls_app. simpl.
      now rewrite !app_nil_r.
    + destruct (Z.ltb_spec runtime_version 9020); [|lia]. simpl.
      rewrite backend_calls_app, allocator_calls_app. simpl.
      now rewrite !app_nil_r.
  - intros Hd. destruct (entry_dtype c) as [t|name] eqn:Hc.
    + simpl in Hd. apply bool_decide_eq_false in Hd.
      rewrite (run_entry_plain c t w Hc Hd).
      destruct (dispatch_trace (dispatched c (instantiation_of t)) w
                  [EvStream]) as (evs & Htr & Hm).
      rewrite Htr, !capability_queries_app. simpl.
      rewrite (memory_events_no_query evs Hm). now rewrite app_nil_r.
    + rewrite run_entry_unsupported by (rewrite Hc; reflexivity).
      simpl. rewrite capability_queries_app. simpl. now rewrite app_nil_r.
Qed.

(** C4: for a descriptor that matches none of the fourteen types, [sort]
    and [argsort] end with [NotImplementedError] and [lexsort] ends with
    [TypeError]; in all three the world has only seen the query of the
    current stream: no call of the allocator and no backend call. *)
Theorem unsupported_descriptor (d : type_descriptor) (w : World)
    (idx_start data_start keys_start k n : Z) (shape : list Z) :
  (∀ t, dtype_eq d t = false) ->
  sort d data_start keys_start shape w
  = (extend w [EvStream],
     Raise (NotImplementedError
              ("Sorting arrays with dtype '" +:+ format d
               +:+ "' is not supported")))
  ∧ argsort d idx_start data_start keys_start shape w
    = (extend w [EvStream],
       Raise (NotImplementedError
                ("Sorting arrays with dtype '" +:+ format d
                 +:+ "' is not supported")))
  ∧ lexsort d idx_start keys_start k n w
    = (extend w [EvStream],
       Raise (TypeError
                ("Sorting keys with dtype '" +:+ format d
                 +:+ "' is not supported")))
  ∧ allocator_calls (trace (extend w [EvStream])) = allocator_calls (trace w)
  ∧ backend_calls (trace (extend w [EvStream])) = backend_calls (trace w).
Proof.
  intros Hnone.
  split; [exact (run_entry_unsupported (call_sort d _ _ _) w Hnone)|].
  split; [exact (run_entry_unsupported (call_argsort d _ _ _ _) w Hnone)|].
  split; [exact (run_entry_unsupported (call_lexsort d _ _ _ _) w Hnone)|].
  simpl. rewrite allocator_calls_app, backend_calls_app. simpl.
  now rewrite !app_nil_r.
Qed.

(** The run of an entry point with the descriptor of a tag, the gate
    passed: the backend call of the tag in a fresh bridge. *)
Lemma run_entry_dispatch (c : entry_call) (t : TypeTag) (w : World) :
  entry_dtype c = Dtype t ->
  (t = numpy.float16 ->
   53 <= compute_capability ∧ 9020 <= runtime_version) ->
  run_entry c w
  = with_bridge _MemoryManager_init
      (call (dispatched c (instantiation_of t)))
      (extend w (entry_prelude t)).
Proof.
  intros Hc Hgate. destruct (decide (t = numpy.float16)) as [->|Ht].
  - destruct (Hgate eq_refl) as [Hcc Hrv].
    rewrite (run_entry_fp16 c w Hc).
    destruct (Z.ltb_spec compute_capability 53); [lia|].
    destruct (Z.ltb_spec runtime_version 9020); [lia|]. reflexivity.
  - rewrite (run_entry_plain c t w Hc Ht). unfold entry_prelude.
    now rewrite bool_decide_eq_false_2.
Qed.

(** C8, what the code does: a call of [sort], [lexsort] or [argsort] whose
    backend returns destroys its bridge, which releases the allocations
    still in the map; a call whose backend fails ends with the backend's
    exception in the very world the backend left: the bridge is not
    destroyed, and what its map holds at the failure is not released. *)
Theorem backend_failure_skips_teardown (c : entry_call) (t : TypeTag)
    (w : World) (s : BridgeState) :
  entry_dtype c = Dtype t ->
  (t = numpy.float16 ->
   53 <= compute_capability ∧ 9020 <= runtime_version) ->
  (run_backend (backend (dispatched c (instantiation_of t)))
     (_MemoryManager_init,
      extend w (entry_prelude t
                ++ [EvBackend (dispatched c (instantiation_of t))]))
   = (s, Ok tt) ->
   snd (run_entry c w) = Ok tt
   ∧ releases (trace (fst (run_entry c w)))
     ≡ₚ releases (trace (snd s)) ++ held (fst s))
  ∧ (∀ e,
       run_backend (backend (dispatched c (instantiation_of t)))
         (_MemoryManager_init,
          extend w (entry_prelude t
                    ++ [EvBackend (dispatched c (instantiation_of t))]))
       = (s, Raise e) ->
       run_entry c w = (snd s, Raise e)).
Proof.
  intros Hc Hgate.
  rewrite (run_entry_dispatch c t w Hc Hgate), with_bridge_call_run,
    extend_extend.
  split.
  - intros ->. split; [reflexivity|]. simpl.
    now rewrite dealloc_trace, releases_app, releases_map_release.
  - intros e ->. reflexivity.
Qed.

End Dispatch.

Section Invariant.

Context `{External}.

(** ** The map of a bridge along a sequence of callbacks *)

(** [cupy_malloc] returns null and leaves the map as it was, or, for a
    size other than 0, writes one key, the address it returns. *)
Lemma cupy_malloc_memory size (s : BridgeState) :
  let '(s', r) := cupy_malloc size s in
  (memory (fst s') = memory (fst s) ∧ r = Ok 0)
  ∨ (∃ m, size ≠ 0 ∧ r = Ok (ptr m)
          ∧ memory (fst s') = <[ptr m := m]> (memory (fst s))).
Proof.
  destruct s as [mm w]. destruct (decide (size = 0)) as [->|Hsize].
  { left. simpl. auto. }
  rewrite cupy_malloc_nonzero by assumption.
  destruct (memory_alloc (heap w) size) as [h [m|e]]; simpl.
  - right. exists m. auto.
  - left. auto.
Qed.

(** [cupy_free] leaves the map as it was or deletes the key it was
    called with, which the map held. *)
Lemma cupy_free_memory p (s : BridgeState) :
  let '(s', r) := cupy_free p s in
  memory (fst s') = memory (fst s)
  ∨ (p ≠ 0 ∧ is_Some (memory (fst s) !! p)
     ∧ memory (fst s') = delete p (memory (fst s))).
Proof.
  destruct s as [mm w]. destruct (decide (p = 0)) as [->|Hp].
  { left. reflexivity. }
  rewrite cupy_free_nonnull by assumption.
  destruct (memory mm !! p) as [old|] eqn:Hold; simpl.
  - right. rewrite Hold. eauto.
  - left. reflexivity.
Qed.

Lemma removed_by_free_later a st h :
  removed_by_free a h -> removed_by_free a (st :: h).
Proof.
  intros (r & before & after & Hin & Hb & Ha).
  exists r, before, after. split; [apply elem_of_cons; now right|auto].
Qed.

(** A key of the map stays in it along the callbacks, unless a
    [cupy_free] call with that key takes it out. *)
Lemma key_stays_or_removed (cs : list callback) :
  ∀ (s : BridgeState) (a : Z),
    is_Some (memory (fst s) !! a) ->
    is_Some (memory (fst (fst (run_callbacks cs s))) !! a)
    ∨ removed_by_free a (snd (run_callbacks cs s)).
Proof.
  induction cs as [|c cs IH]; intros s a Ha; simpl; [now left|].
  destruct c as [size|p]; simpl.
  - pose proof (cupy_malloc_memory size s) as Hm.
    destruct (cupy_malloc size s) as [s1 r].
    assert (is_Some (memory (fst s1) !! a)) as Ha1.
    { destruct Hm as [[-> _]|(m & _ & _ & ->)]; [assumption|].
      destruct (decide (ptr m = a)) as [->|Hne].
      - rewrite lookup_insert_eq. eauto.
      - now rewrite lookup_insert_ne. }
    specialize (IH s1 a Ha1).
    destruct (run_callbacks cs s1) as [s2 h]. simpl in *.
    destruct IH as [IH|IH]; [now left|right].
    now apply removed_by_free_later.
  - pose proof (cupy_free_memory p s) as Hf.
    destruct (cupy_free p s) as [s1 r] eqn:Hrun.
    destruct (decide (is_Some (memory (fst s1) !! a))) as [Ha1|Ha1].
    + specialize (IH s1 a Ha1).
      destruct (run_callbacks cs s1) as [s2 h]. simpl in *.
      destruct IH as [IH|IH]; [now left|right].
      now apply removed_by_free_later.
    + destruct (run_callbacks cs s1) as [s2 h]. simpl. right.
      destruct Hf as [Heq|(Hp & Hsome & Hdel)].
      { rewrite Heq in Ha1. contradiction. }
      assert (p = a) as ->.
      { destruct (decide (p = a)) as [|Hne]; [assumption|].
        rewrite Hdel, lookup_delete_ne in Ha1 by assumption.
        contradiction. }
      exists r, (memory (fst s)), (memory (fst s1)).
      split; [apply elem_of_cons; now left|]. split; [assumption|].
      rewrite Hdel. apply lookup_delete_eq.
Qed.

(** A callback takes a key out of the map only when it is [cupy_free]
    called with that key. *)
Lemma run_callback_removes (c : callback) (s : BridgeState) (a : Z) :
  let st := snd (run_callback c s) in
  is_Some (fst (step_maps st) !! a) -> snd (step_maps st) !! a = None ->
  is_free_of a st.
Proof.
  destruct c as [size|p]; simpl.
  - pose proof (cupy_malloc_memory size s) as Hm.
    destruct (cupy_malloc size s) as [s1 r]. simpl.
    intros Hb Ha.
    destruct Hm as [[Heq _]|(m & _ & _ & Heq)]; rewrite Heq in Ha.
    + rewrite Ha in Hb. now destruct Hb.
    + destruct (decide (ptr m = a)) as [<-|Hne].
      * now rewrite lookup_insert_eq in Ha.
      * rewrite lookup_insert_ne in Ha by assumption.
        rewrite Ha in Hb. now destruct Hb.
  - pose proof (cupy_free_memory p s) as Hf.
    destruct (cupy_free p s) as [s1 r]. simpl.
    intros Hb Ha.
    destruct Hf as [Heq|(_ & _ & Heq)]; rewrite Heq in Ha.
    + rewrite Ha in Hb. now destruct Hb.
    + destruct (decide (p = a)) as [|Hne]; [assumption|].
      rewrite lookup_delete_ne in Ha by assumption.
      rewrite Ha in Hb. now destruct Hb.
Qed.

(** C7, as the code has it: along every sequence of [cupy_malloc] and
    [cupy_free] calls on one bridge, every address [cupy_malloc] returned,
    the null address apart, is a key of the map at the end, or a
    [cupy_free] call with that same address took it out of the map; and a
    key leaves the map at no step but a [cupy_free] call with that key.
    (The null address, returned for size 0 and when the allocator fails,
    stands for no entry of the map.) *)
Theorem bridge_invariant (cs : list callback) (s : BridgeState) :
  let s' := fst (run_callbacks cs s) in
  let h := snd (run_callbacks cs s) in
  (∀ a, a ≠ 0 -> returned_by_malloc a h ->
        is_Some (memory (fst s') !! a) ∨ removed_by_free a h)
  ∧ (∀ st a, st ∈ h ->
        is_Some (fst (step_maps st) !! a) ->
        snd (step_maps st) !! a = None ->
        is_free_of a st).
Proof.
  revert s. induction cs as [|c cs IH]; intros s; simpl.
  { split.
    - intros a _ (size & b & af & Hin). now apply elem_of_nil in Hin.
    - intros st a Hin. now apply elem_of_nil in Hin. }
  pose proof (run_callback_removes c s) as Hrem.
  pose proof (key_stays_or_removed cs) as Hstay.
  specialize (IH (fst (run_callback c s))).
  assert (∀ size a b af,
            snd (run_callback c s) = malloc_step size (Ok a) b af ->
            a ≠ 0 -> is_Some (memory (fst (fst (run_callback c s))) !! a))
    as Hhead.
  { intros size a b af Hst Ha. destruct c as [size'|p]; simpl in *.
    - pose proof (cupy_malloc_memory size' s) as Hm.
      destruct (cupy_malloc size' s) as [s1 r]. simpl in *.
      injection Hst as -> -> _ _.
      destruct Hm as [[_ [= ->]]|(m & _ & [= ->] & ->)]; [contradiction|].
      rewrite lookup_insert_eq. eauto.
    - destruct (cupy_free p s). discriminate. }
  destruct (run_callback c s) as [s1 st]. simpl in *.
  specialize (Hstay s1).
  destruct (run_callbacks cs s1) as [s2 h]. simpl in *.
  destruct IH as [IH1 IH2]. split.
  - intros a Ha (size & b & af & Hin).
    apply elem_of_cons in Hin as [Hin|Hin].
    + destruct (Hstay a (Hhead size a b af (eq_sym Hin) Ha)) as [?|?];
        [now left|right; now apply removed_by_free_later].
    + destruct (IH1 a Ha) as [?|?];
        [now exists size, b, af|now left
        |right; now apply removed_by_free_later].
  - intros st' a Hin. apply elem_of_cons in Hin as [->|Hin].
    + apply Hrem.
    + now apply IH2.
Qed.

End Invariant.

(** * The properties at concrete inputs *)

(** C1 at a fresh bridge and the address 4096. *)
Lemma cupy_free_null_or_unknown_witness :
  (4096 ≠ 0 ∧ memory _MemoryManager_init !! 4096 = None)
  ∧ @cupy_free recent_device 4096
      (_MemoryManager_init, world0 recent_device 0)
    = ((_MemoryManager_init,
        world_at recent_device 0 [EvUnraisable (KeyError 4096)]),
       Ok tt)
  ∧ fst (fst (@cupy_free recent_device 4096
                (_MemoryManager_init, world0 recent_device 0)))
    = _MemoryManager_init.
Proof.
  split; [split; [lia|reflexivity]|]. split; [reflexivity|].
  apply (proj2 (@cupy_free_null_or_unknown recent_device)
           _MemoryManager_init (world0 recent_device 0) 4096);
    [lia|reflexivity].
Defined.

(** C2, counterexample: on a device of compute capability 52, [sort] with
    the [float16] descriptor ends with [RuntimeError] and makes no backend
    call at all, so none at the instantiation of the tag. *)
Lemma float16_not_dispatched_on_old_device :
  @run_entry old_device (call_sort (Dtype numpy.float16) 1000 2000 [4])
    (world0 old_device 0)
  = (world_at old_device 0
        [EvStream; EvComputeCapability],
     Raise (RuntimeError fp16_unsupported))
  ∧ backend_calls
      (trace (fst (@run_entry old_device
                     (call_sort (Dtype numpy.float16) 1000 2000 [4])
                     (world0 old_device 0))))
    ≠ [_sort (instantiation_of numpy.float16) 1000 2000 [4] 7].
Proof. split; [reflexivity|]. discriminate. Qed.

(** C2 at [sort] with [float16] on a device that passes the gate. *)
Lemma dispatch_by_tag_witness :
  (numpy.float16 = numpy.float16 ->
   53 <= @compute_capability recent_device
   ∧ 9020 <= @runtime_version recent_device)
  ∧ backend_calls
      (trace (fst (@run_entry recent_device
                     (call_sort (Dtype numpy.float16) 1000 2000 [4])
                     (world0 recent_device 0))))
    = [_sort Fp16 1000 2000 [4] 7].
Proof.
  split; [intros _; simpl; lia|].
  apply (@dispatch_by_tag recent_device
           (call_sort (Dtype numpy.float16) 1000 2000 [4]) numpy.float16
           (world0 recent_device 0)); [reflexivity|intros _; simpl; lia].
Defined.

(** C3 at [lexsort] with [float16] and at [argsort] with [int32], both on
    a device of compute capability 52. *)
Lemma fp16_gate_witness :
  (dtype_eq (Dtype numpy.float16) numpy.float16 = true
   ∧ (@compute_capability old_device < 53
      ∨ @runtime_version old_device < 9020))
  ∧ snd (@run_entry old_device
           (call_lexsort (Dtype numpy.float16) 1000 2000 2 3)
           (world0 old_device 0))
    = Raise (RuntimeError fp16_unsupported)
  ∧ dtype_eq (Dtype numpy.int32) numpy.float16 = false
  ∧ capability_queries
      (trace (fst (@run_entry old_device
                     (call_argsort (Dtype numpy.int32) 1000 2000 3000 [4])
                     (world0 old_device 0))))
    = [].
Proof.
  split; [split; [reflexivity|left; simpl; lia]|].
  split.
  - apply (proj1 (@fp16_gate old_device
                    (call_lexsort (Dtype numpy.float16) 1000 2000 2 3)
                    (world0 old_device 0)));
      [reflexivity|left; simpl; lia].
  - split; [reflexivity|].
    apply (proj2 (@fp16_gate old_device
                    (call_argsort (Dtype numpy.int32) 1000 2000 3000 [4])
                    (world0 old_device 0))).
    reflexivity.
Defined.

(** C4 at the descriptor of a 128-bit float. *)
Lemma unsupported_descriptor_witness :
  (∀ t, dtype_eq (OtherDtype "float128") t = false)
  ∧ @sort recent_device (OtherDtype "float128") 1000 2000 [4]
      (world0 recent_device 0)
    = (world_at recent_device 0
        [EvStream],
       Raise (NotImplementedError
                "Sorting arrays with dtype 'float128' is not supported"))
  ∧ @lexsort recent_device (OtherDtype "float128") 1000 2000 2 3
      (world0 recent_device 0)
    = (world_at recent_device 0
        [EvStream],
       Raise (TypeError
                "Sorting keys with dtype 'float128' is not supported")).
Proof.
  split; [intros t; reflexivity|].
  pose proof (@unsupported_descriptor recent_device (OtherDtype "float128")
                (world0 recent_device 0) 1000 1000 2000 2 3 [4]
                (fun t => eq_refl)) as (Hsort & _ & Hlexsort & _).
  split; [exact Hsort|exact Hlexsort].
Defined.

(** C6 at a fresh bridge and 64 bytes. *)
Lemma cupy_malloc_records_witness :
  (64 > 0
   ∧ @memory_alloc recent_device 0 64
     = (64, Ok {| ptr := 4096; nbytes := 64 |}))
  ∧ snd (@cupy_malloc recent_device 64
           (_MemoryManager_init, world0 recent_device 0))
    = Ok 4096
  ∧ memory (fst (fst (@cupy_malloc recent_device 64
                        (_MemoryManager_init, world0 recent_device 0))))
    !! 4096
    = Some {| ptr := 4096; nbytes := 64 |}.
Proof.
  split; [split; [lia|reflexivity]|].
  pose proof (proj2 (@cupy_malloc_records recent_device _MemoryManager_init
                       (world0 recent_device 0) 64 ltac:(lia))
                64 {| ptr := 4096; nbytes := 64 |} eq_refl)
    as (Hret & _ & Hkey).
  split; [exact Hret|exact Hkey].
Defined.

(** C10, counterexample: on a pool of 1024 bytes the allocator raises for
    a request of 2048 bytes, and [cupy_malloc] does not end with that
    exception: it returns the null address. *)
Lemma cupy_malloc_does_not_propagate :
  @memory_alloc recent_device 0 2048 = (0, Raise out_of_memory)
  ∧ snd (@cupy_malloc recent_device 2048
           (_MemoryManager_init, world0 recent_device 0))
    = Ok 0
  ∧ snd (@cupy_malloc recent_device 2048
           (_MemoryManager_init, world0 recent_device 0))
    ≠ Raise out_of_memory.
Proof. split; [reflexivity|]. split; [reflexivity|discriminate]. Qed.

(** C10 at a request of 2048 bytes, more than the pool has. *)
Lemma cupy_malloc_drops_allocator_error_witness :
  (2048 > 0 ∧ @memory_alloc recent_device 0 2048 = (0, Raise out_of_memory))
  ∧ @cupy_malloc recent_device 2048
      (_MemoryManager_init, world0 recent_device 0)
    = ((_MemoryManager_init,
        world_at recent_device 0
          [EvAlloc 2048 (Raise out_of_memory); EvUnraisable out_of_memory]),
       Ok 0).
Proof.
  split; [split; [lia|reflexivity]|].
  apply (proj1 (@cupy_malloc_drops_allocator_error recent_device
                  _MemoryManager_init (world0 recent_device 0) 2048 0
                  out_of_memory ltac:(lia) eq_refl)).
Defined.

(** C7, counterexample: [cupy_malloc] with size 0 on a fresh bridge
    returns the null address; it is not a key of the map, and no
    [cupy_free] call took it out. *)
Lemma null_address_returned_untracked :
  returned_by_malloc 0
    (snd (@run_callbacks recent_device [do_malloc 0]
            (_MemoryManager_init, world0 recent_device 0)))
  ∧ memory (fst (fst (@run_callbacks recent_device [do_malloc 0]
                        (_MemoryManager_init, world0 recent_device 0))))
    !! 0 = None
  ∧ ¬ removed_by_free 0
        (snd (@run_callbacks recent_device [do_malloc 0]
                (_MemoryManager_init, world0 recent_device 0))).
Proof.
  split.
  { exists 0. do 2 eexists. apply elem_of_cons. left. reflexivity. }
  split; [reflexivity|].
  intros (r & before & after & Hin & _).
  simpl in Hin. apply list_elem_of_singleton in Hin. discriminate.
Qed.

(** C7 at three callbacks: 64 bytes taken, a request of size 0, and the
    64 bytes given back. *)
Lemma bridge_invariant_witness :
  (4096 ≠ 0
   ∧ returned_by_malloc 4096
       (snd (@run_callbacks recent_device
               [do_malloc 64; do_malloc 0; do_free 4096]
               (_MemoryManager_init, world0 recent_device 0))))
  ∧ (is_Some
       (memory (fst (fst (@run_callbacks recent_device
                            [do_malloc 64; do_malloc 0; do_free 4096]
                            (_MemoryManager_init, world0 recent_device 0))))
        !! 4096)
     ∨ removed_by_free 4096
         (snd (@run_callbacks recent_device
                 [do_malloc 64; do_malloc 0; do_free 4096]
                 (_MemoryManager_init, world0 recent_device 0)))).
Proof.
  assert (returned_by_malloc 4096
            (snd (@run_callbacks recent_device
                    [do_malloc 64; do_malloc 0; do_free 4096]
                    (_MemoryManager_init, world0 recent_device 0))))
    as Hret.
  { exists 64. do 2 eexists. apply elem_of_cons. left. reflexivity. }
  split; [split; [lia|exact Hret]|].
  exact (proj1 (@bridge_invariant recent_device
                  [do_malloc 64; do_malloc 0; do_free 4096]
                  (_MemoryManager_init, world0 recent_device 0))
           4096 ltac:(lia) Hret).
Defined.

(** C8 at [sort] of 32-bit integers with a backend that takes 64 bytes and
    then fails: the call ends with the backend's exception, and the 64
    bytes, taken from the allocator, are not released. *)
Lemma backend_failure_skips_teardown_witness :
  (Dtype numpy.int32 = Dtype numpy.int32
   ∧ @run_backend faulty_device
       (failing_backend (_sort (Template common.cpy_int) 1000 2000 [4] 7))
       (_MemoryManager_init,
        world_at faulty_device 0
          [EvStream;
           EvBackend (_sort (Template common.cpy_int) 1000 2000 [4] 7)])
     = (({| memory := {[ 4096 := {| ptr := 4096; nbytes := 64 |} ]} |},
         world_at faulty_device 64
           [EvStream;
            EvBackend (_sort (Template common.cpy_int) 1000 2000 [4] 7);
            EvAlloc 64 (Ok {| ptr := 4096; nbytes := 64 |})]),
        Raise (RuntimeError "radix_sort: failed on 1st step")))
  ∧ @sort faulty_device (Dtype numpy.int32) 1000 2000 [4]
      (world0 faulty_device 0)
    = (world_at faulty_device 64
         [EvStream;
          EvBackend (_sort (Template common.cpy_int) 1000 2000 [4] 7);
          EvAlloc 64 (Ok {| ptr := 4096; nbytes := 64 |})],
       Raise (RuntimeError "radix_sort: failed on 1st step"))
  ∧ allocations
      (trace (fst (@sort faulty_device (Dtype numpy.int32) 1000 2000 [4]
                     (world0 faulty_device 0))))
    = [{| ptr := 4096; nbytes := 64 |}]
  ∧ releases
      (trace (fst (@sort faulty_device (Dtype numpy.int32) 1000 2000 [4]
                     (world0 faulty_device 0))))
    = [].
Proof.
  split; [split; reflexivity|].
  split; [|split; reflexivity].
  apply (proj2 (@backend_failure_skips_teardown faulty_device
                  (call_sort (Dtype numpy.int32) 1000 2000 [4]) numpy.int32
                  (world0 faulty_device 0)
                  ({| memory :=
                        {[ 4096 := {| ptr := 4096; nbytes := 64 |} ]} |},
                   world_at faulty_device 64
                     [EvStream;
                      EvBackend
                        (_sort (Template common.cpy_int) 1000 2000 [4] 7);
                      EvAlloc 64 (Ok {| ptr := 4096; nbytes := 64 |})])
                  eq_refl ltac:(discriminate))
           (RuntimeError "radix_sort: failed on 1st step")).
  reflexivity.
Defined.

(** The scenario of a backend that allocates twice and frees once: the
    one allocation left over is released when the bridge goes. *)
Example sort_int32_two_buffers :
  @sort recent_device (Dtype numpy.int32) 1000 2000 [4]
    (world0 recent_device 0)
  = (world_at recent_device 96
        [EvStream;
                  EvBackend (_sort (Template common.cpy_int) 1000 2000 [4] 7);
                  EvAlloc 64 (Ok {| ptr := 4096; nbytes := 64 |});
                  EvAlloc 32 (Ok {| ptr := 4160; nbytes := 32 |});
                  EvRelease {| ptr := 4096; nbytes := 64 |};
                  EvRelease {| ptr := 4160; nbytes := 32 |}],
     Ok tt).
Proof. reflexivity. Qed.

(** At the threshold, compute capability 53 and runtime 9020, [float16]
    goes to the function for half precision; one step below in either,
    it does not. *)
Example float16_at_the_threshold :
  backend_calls
    (trace (fst (@argsort (device 53 9020) (Dtype numpy.float16)
                   1000 2000 3000 [4] (world0 (device 53 9020) 0))))
  = [_argsort_fp16 1000 2000 3000 [4] 7]
  ∧ snd (@argsort (device 52 9020) (Dtype numpy.float16)
           1000 2000 3000 [4] (world0 (device 52 9020) 0))
    = Raise (RuntimeError fp16_unsupported)
  ∧ snd (@argsort (device 53 9010) (Dtype numpy.float16)
           1000 2000 3000 [4] (world0 (device 53 9010) 0))
    = Raise (RuntimeError fp16_unsupported).
Proof. repeat split. Qed.

(** * Further properties of the callbacks *)

Section CallbackLaws.

Context `{External}.

(** X1: [cupy_free] never ends with an exception.  For the null address
    the map stays as it is, even when null is a key; for any other
    address the map afterwards is the map without that key.  So the map
    changes exactly when the address is not null and is a key. *)
Theorem cupy_free_outcome (mm : _MemoryManager) (w : World) (p : Z) :
  snd (cupy_free p (mm, w)) = Ok tt
  ∧ memory (fst (fst (cupy_free p (mm, w))))
    = (if p =? 0 then memory mm else delete p (memory mm))
  ∧ (memory (fst (fst (cupy_free p (mm, w)))) ≠ memory mm
     ↔ p ≠ 0 ∧ is_Some (memory mm !! p)).
Proof.
  destruct (Z.eqb_spec p 0) as [->|Hp].
  { split; [reflexivity|]. split; [reflexivity|].
    split; [intros Hne; now destruct Hne|intros [Hne _]; now destruct Hne]. }
  rewrite cupy_free_nonnull by assumption.
  destruct (memory mm !! p) as [old|] eqn:Hold; simpl.
  - split; [reflexivity|]. split; [reflexivity|].
    split; [eauto|]. intros _ Heq.
    apply (f_equal (fun m => m !! p)) in Heq.
    rewrite lookup_delete_eq, Hold in Heq. discriminate.
  - split; [reflexivity|]. split; [now rewrite delete_id|].
    split; [intros Hne; now destruct Hne|].
    intros [_ [? ?]]. discriminate.
Qed.

(** X2: freeing an address the map holds takes out that key and no other;
    freeing the same address once more returns as well and changes
    neither the bridge nor the allocator: the [KeyError] of the second
    [del] is reported as unraisable and dropped. *)
Theorem cupy_free_twice (mm : _MemoryManager) (w : World) (p : Z)
    (m : MemoryPointer) :
  p ≠ 0 -> memory mm !! p = Some m ->
  let s1 := fst (cupy_free p (mm, w)) in
  snd (cupy_free p (mm, w)) = Ok tt
  ∧ memory (fst s1) !! p = None
  ∧ (∀ q, q ≠ p -> memory (fst s1) !! q = memory mm !! q)
  ∧ cupy_free p s1
    = ((fst s1, extend (snd s1) [EvUnraisable (KeyError p)]), Ok tt).
Proof.
  intros Hp Hm s1. subst s1.
  rewrite cupy_free_nonnull by assumption. rewrite Hm. simpl.
  split; [reflexivity|]. split; [apply lookup_delete_eq|].
  split; [intros q Hq; now apply lookup_delete_ne|].
  rewrite cupy_free_nonnull by assumption. simpl.
  now rewrite lookup_delete_eq.
Qed.

(** X3: when the allocator returns an allocation at an address other than
    null that the map does not hold yet, [cupy_malloc] followed by
    [cupy_free] of the address it returned both return, and the bridge is
    the one before the two calls. *)
Theorem malloc_free_round_trip (mm : _MemoryManager) (w : World) (size : Z)
    (h : Heap) (m : MemoryPointer) :
  size ≠ 0 ->
  memory_alloc (heap w) size = (h, Ok m) ->
  ptr m ≠ 0 ->
  memory mm !! ptr m = None ->
  let s1 := fst (cupy_malloc size (mm, w)) in
  snd (cupy_malloc size (mm, w)) = Ok (ptr m)
  ∧ snd (cupy_free (ptr m) s1) = Ok tt
  ∧ fst (fst (cupy_free (ptr m) s1)) = mm.
Proof.
  intros Hsize Halloc Hptr Hfresh s1. subst s1.
  rewrite cupy_malloc_nonzero by assumption.
  rewrite Halloc, Hfresh. simpl. split; [reflexivity|].
  rewrite cupy_free_nonnull by assumption. simpl.
  rewrite lookup_insert_eq. simpl. split; [reflexivity|].
  rewrite delete_insert_eq, delete_id by assumption.
  now destruct mm.
Qed.

(** X4: [cupy_malloc] never ends with an exception; and when it returns
    an address other than null, the size was not 0, the external
    allocator returned an allocation at that address, and the map holds
    that allocation under that address. *)
Theorem cupy_malloc_nonnull_recorded (mm : _MemoryManager) (w : World)
    (size : Z) :
  (∃ a, snd (cupy_malloc size (mm, w)) = Ok a)
  ∧ (∀ a, snd (cupy_malloc size (mm, w)) = Ok a -> a ≠ 0 ->
       size ≠ 0
       ∧ ∃ m, snd (memory_alloc (heap w) size) = Ok m
              ∧ ptr m = a
              ∧ memory (fst (fst (cupy_malloc size (mm, w)))) !! a
                = Some m).
Proof.
  destruct (decide (size = 0)) as [->|Hsize].
  { split; [now exists 0|]. intros a [= <-] Ha. now destruct Ha. }
  rewrite cupy_malloc_nonzero by assumption.
  destruct (memory_alloc (heap w) size) as [h [m|e]]; simpl.
  - split; [eauto|]. intros a [= <-] _. split; [assumption|].
    exists m. split; [reflexivity|]. split; [reflexivity|].
    apply lookup_insert_eq.
  - split; [eauto|]. intros a [= <-] Ha. now destruct Ha.
Qed.

Lemma cupy_malloc_keyed size (s : BridgeState) :
  keyed_by_address (memory (fst s)) ->
  keyed_by_address (memory (fst (fst (cupy_malloc size s)))).
Proof.
  intros Hk. pose proof (cupy_malloc_memory size s) as Hm.
  destruct (cupy_malloc size s) as [s1 r]. simpl.
  destruct Hm as [[-> _]|(m & _ & _ & ->)]; [assumption|].
  intros k v. destruct (decide (ptr m = k)) as [<-|Hne].
  - rewrite lookup_insert_eq. now intros [= <-].
  - rewrite lookup_insert_ne by assumption. apply Hk.
Qed.

Lemma cupy_free_keyed p (s : BridgeState) :
  keyed_by_address (memory (fst s)) ->
  keyed_by_address (memory (fst (fst (cupy_free p s)))).
Proof.
  intros Hk. pose proof (cupy_free_memory p s) as Hf.
  destruct (cupy_free p s) as [s1 r]. simpl.
  destruct Hf as [->|(_ & _ & ->)]; [assumption|].
  intros k v. destruct (decide (p = k)) as [<-|Hne].
  - now rewrite lookup_delete_eq.
  - rewrite lookup_delete_ne by assumption. apply Hk.
Qed.

(** X5: a map in which every allocation sits under its own address stays
    so along whatever a backend call does with the bridge and along every
    sequence of callbacks. *)
Theorem keyed_by_address_kept (s : BridgeState) :
  keyed_by_address (memory (fst s)) ->
  (∀ p, keyed_by_address (memory (fst (fst (run_backend p s)))))
  ∧ (∀ cs, keyed_by_address (memory (fst (fst (run_callbacks cs s))))).
Proof.
  intros Hk. split.
  - intros p. revert s Hk.
    induction p as [|e|size k IH|a k IH]; intros s Hk; simpl;
      [assumption|assumption| |].
    + pose proof (cupy_malloc_keyed size s Hk) as Hk1.
      destruct (cupy_malloc size s) as [s1 r]. now apply IH.
    + pose proof (cupy_free_keyed a s Hk) as Hk1.
      destruct (cupy_free a s) as [s1 r]. now apply IH.
  - intros cs. revert s Hk.
    induction cs as [|c cs IH]; intros s Hk; simpl; [assumption|].
    assert (keyed_by_address (memory (fst (fst (run_callback c s)))))
      as Hk1.
    { destruct c as [size|p]; simpl.
      - pose proof (cupy_malloc_keyed size s Hk).
        now destruct (cupy_malloc size s).
      - pose proof (cupy_free_keyed p s Hk).
        now destruct (cupy_free p s). }
    destruct (run_callback c s) as [s1 st]. simpl in Hk1.
    specialize (IH s1 Hk1). now destruct (run_callbacks cs s1).
Qed.

Lemma returned_for_nonzero_size_later a st h :
  returned_for_nonzero_size a h -> returned_for_nonzero_size a (st :: h).
Proof.
  intros (size & b & af & Hsize & Hin).
  exists size, b, af. split; [assumption|apply elem_of_cons; now right].
Qed.

(** X6: along every sequence of callbacks, a key of the map at the end
    was a key at the start or is an address [cupy_malloc] returned for a
    size other than 0: nothing else enters the map. *)
Theorem keys_come_from_malloc (cs : list callback) (s : BridgeState)
    (a : Z) :
  is_Some (memory (fst (fst (run_callbacks cs s))) !! a) ->
  is_Some (memory (fst s) !! a)
  ∨ returned_for_nonzero_size a (snd (run_callbacks cs s)).
Proof.
  revert s. induction cs as [|c cs IH]; intros s; simpl; [now left|].
  assert (∀ s1 st, run_callback c s = (s1, st) ->
            is_Some (memory (fst s1) !! a) ->
            is_Some (memory (fst s) !! a)
            ∨ ∃ size b af, size ≠ 0 ∧ st = malloc_step size (Ok a) b af)
    as Hhead.
  { intros s1 st Hrun Ha. destruct c as [size|p]; simpl in Hrun.
    - pose proof (cupy_malloc_memory size s) as Hm.
      destruct (cupy_malloc size s) as [s1' r]. injection Hrun as <- <-.
      destruct Hm as [[Heq _]|(m & Hsize & -> & Heq)];
        rewrite Heq in Ha; [now left|].
      destruct (decide (ptr m = a)) as [<-|Hne].
      + right. eauto.
      + rewrite lookup_insert_ne in Ha by assumption. now left.
    - pose proof (cupy_free_memory p s) as Hf.
      destruct (cupy_free p s) as [s1' r]. injection Hrun as <- <-.
      destruct Hf as [Heq|(_ & _ & Heq)]; rewrite Heq in Ha; [now left|].
      destruct (decide (p = a)) as [<-|Hne].
      + rewrite lookup_delete_eq in Ha. now destruct Ha.
      + rewrite lookup_delete_ne in Ha by assumption. now left. }
  destruct (run_callback c s) as [s1 st].
  specialize (IH s1). specialize (Hhead s1 st eq_refl).
  destruct (run_callbacks cs s1) as [s2 h]. simpl in *.
  intros Ha. destruct (IH Ha) as [Ha1|Hret].
  - destruct (Hhead Ha1) as [?|(size & b & af & Hsize & ->)]; [now left|].
    right. exists size, b, af. split; [assumption|].
    apply elem_of_cons. now left.
  - right. now apply returned_for_nonzero_size_later.
Qed.



End CallbackLaws.

(** * Further properties of the entry points *)

Section EntryLaws.

Context `{External}.

(** An entry-point call either stops before its chain reaches the backend
    (the gate or the [else] raised, and the world has only seen queries),
    or it is the backend call of its tag in a fresh bridge. *)
Lemma run_entry_cases (c : entry_call) (w : World) :
  (∃ pre e,
     run_entry c w = (extend w (EvStream :: pre), Raise e)
     ∧ Forall (fun ev => is_capability_query ev = true) pre
     ∧ (e = unsupported_error c ∨ e = RuntimeError fp16_unsupported))
  ∨ (∃ t,
       entry_dtype c = Dtype t
       ∧ (t = numpy.float16 ->
          53 <= compute_capability ∧ 9020 <= runtime_version)
       ∧ run_entry c w
         = with_bridge _MemoryManager_init
             (call (dispatched c (instantiation_of t)))
             (extend w (entry_prelude t))).
Proof.
  destruct (entry_dtype c) as [t|name] eqn:Hc.
  - destruct (decide (t = numpy.float16)) as [->|Ht].
    + rewrite (run_entry_fp16 c w Hc).
      destruct (Z.ltb_spec compute_capability 53).
      { left. exists [EvComputeCapability]. eexists.
        split; [reflexivity|]. split; [repeat constructor|now right]. }
      destruct (Z.ltb_spec runtime_version 9020).
      { left. exists [EvComputeCapability; EvRuntimeVersion]. eexists.
        split; [reflexivity|]. split; [repeat constructor|now right]. }
      right. exists numpy.float16. split; [reflexivity|].
      split; [intros _; lia|reflexivity].
    + right. exists t. split; [reflexivity|]. split; [congruence|].
      rewrite (run_entry_plain c t w Hc Ht). unfold entry_prelude.
      now rewrite bool_decide_eq_false_2.
  - left. exists []. eexists.
    rewrite run_entry_unsupported by (rewrite Hc; reflexivity).
    split; [reflexivity|]. split; [constructor|now left].
Qed.

(** The result of a backend call in a fresh bridge is the result of the
    backend. *)
Lemma with_bridge_call_result (d : backend_call) (w : World) :
  snd (with_bridge _MemoryManager_init (call d) w)
  = snd (run_backend (backend d)
           (_MemoryManager_init, extend w [EvBackend d])).
Proof.
  rewrite with_bridge_call_run.
  now destruct (run_backend (backend d) _) as [s [[]|e]].
Qed.

Lemma capability_queries_only pre :
  Forall (fun ev => is_capability_query ev = true) pre ->
  backend_calls pre = [] ∧ allocator_calls pre = [] ∧ EvStream ∉ pre.
Proof.
  induction 1 as [|ev pre Hev _ (IH1 & IH2 & IH3)].
  - repeat split. apply not_elem_of_nil.
  - destruct ev; simpl in *; try discriminate;
      (split; [assumption|]; split; [assumption|]);
      (intros Hin; apply elem_of_cons in Hin as [?|?];
       [discriminate|contradiction]).
Qed.

Lemma memory_events_no_stream evs :
  Forall (fun e => is_memory_event e = true) evs -> EvStream ∉ evs.
Proof.
  induction 1 as [|e evs He _ IH]; [apply not_elem_of_nil|].
  intros Hin. apply elem_of_cons in Hin as [<-|?];
    [discriminate|contradiction].
Qed.

(** X8: a call of [sort], [lexsort] or [argsort] that returns without an
    exception had the descriptor of one of the fourteen tags, passed the
    gate when the tag is [float16], and made exactly one backend call, at
    the instantiation of its tag; and no call, however it ends, makes more
    than one backend call. *)
Theorem entry_ok_dispatched (c : entry_call) (w : World) :
  (snd (run_entry c w) = Ok tt ->
   ∃ t, entry_dtype c = Dtype t
        ∧ (t = numpy.float16 ->
           53 <= compute_capability ∧ 9020 <= runtime_version)
        ∧ backend_calls (trace (fst (run_entry c w)))
          = backend_calls (trace w) ++ [dispatched c (instantiation_of t)])
  ∧ (length (backend_calls (trace (fst (run_entry c w))))
     <= S (length (backend_calls (trace w))))%nat.
Proof.
  destruct (run_entry_cases c w)
    as [(pre & e & Hrun & Hpre & _)|(t & Hc & Hgate & Hrun)].
  - rewrite Hrun. simpl. split; [discriminate|].
    destruct (capability_queries_only pre Hpre) as (Hb & _ & _).
    rewrite backend_calls_app. simpl. rewrite Hb, app_nil_r. lia.
  - rewrite Hrun.
    destruct (dispatch_trace (dispatched c (instantiation_of t)) w
                (entry_prelude t)) as (evs & Htr & Hm).
    assert (backend_calls (entry_prelude t) = []) as Hpre.
    { unfold entry_prelude. now destruct (bool_decide _). }
    assert (backend_calls
              (trace (fst (with_bridge _MemoryManager_init
                             (call (dispatched c (instantiation_of t)))
                             (extend w (entry_prelude t)))))
            = backend_calls (trace w)
              ++ [dispatched c (instantiation_of t)]) as Hcalls.
    { rewrite Htr, !backend_calls_app, Hpre. simpl.
      now rewrite (memory_events_no_backend_call evs Hm). }
    split.
    + intros _. exists t. auto.
    + rewrite Hcalls, length_app. simpl. lia.
Qed.

(** X9: a call that makes no backend call ends with an exception, and it
    has not called the allocator nor changed its state. *)
Theorem no_dispatch_no_allocation (c : entry_call) (w : World) :
  backend_calls (trace (fst (run_entry c w))) = backend_calls (trace w) ->
  (∃ e, snd (run_entry c w) = Raise e)
  ∧ allocator_calls (trace (fst (run_entry c w)))
    = allocator_calls (trace w)
  ∧ heap (fst (run_entry c w)) = heap w.
Proof.
  destruct (run_entry_cases c w)
    as [(pre & e & Hrun & Hpre & _)|(t & Hc & Hgate & Hrun)].
  - rewrite Hrun. simpl. intros _. split; [eauto|].
    destruct (capability_queries_only pre Hpre) as (_ & Ha & _).
    rewrite allocator_calls_app. simpl. rewrite Ha, app_nil_r. auto.
  - rewrite Hrun.
    destruct (dispatch_trace (dispatched c (instantiation_of t)) w
                (entry_prelude t)) as (evs & Htr & Hm).
    rewrite Htr, !backend_calls_app. simpl.
    intros Heq. apply (f_equal length) in Heq.
    rewrite !length_app in Heq. simpl in Heq. lia.
Qed.

(** X10: the gate evaluates its two tests in order and stops at the
    first that holds: with the [float16] descriptor, a call on a device
    of compute capability below 53 queries the compute capability and not
    the runtime version; on any other device it queries the compute
    capability and then the runtime version, once each. *)
Theorem gate_queries (c : entry_call) (w : World) :
  dtype_eq (entry_dtype c) numpy.float16 = true ->
  capability_queries (trace (fst (run_entry c w)))
  = capability_queries (trace w)
    ++ (if compute_capability <? 53 then [EvComputeCapability]
        else [EvComputeCapability; EvRuntimeVersion]).
Proof.
  intros Hd.
  assert (entry_dtype c = Dtype numpy.float16) as Hd'.
  { destruct (entry_dtype c) as [t|name]; simpl in Hd; [|discriminate].
    apply bool_decide_eq_true in Hd. now subst t. }
  rewrite (run_entry_fp16 c w Hd').
  destruct (compute_capability <? 53); simpl.
  { now rewrite capability_queries_app. }
  destruct (runtime_version <? 9020); simpl.
  { now rewrite capability_queries_app. }
  destruct (dispatch_trace (dispatched c Fp16) w
              [EvStream; EvComputeCapability; EvRuntimeVersion])
    as (evs & Htr & Hm).
  rewrite Htr, !capability_queries_app. simpl.
  now rewrite (memory_events_no_query evs Hm).
Qed.

(** X11: every call of [sort], [lexsort] or [argsort], whatever its
    descriptor and however it ends, asks for the current stream first,
    before anything else, and asks once. *)
Theorem stream_queried_first (c : entry_call) (w : World) :
  ∃ evs,
    trace (fst (run_entry c w)) = trace w ++ EvStream :: evs
    ∧ EvStream ∉ evs.
Proof.
  destruct (run_entry_cases c w)
    as [(pre & e & Hrun & Hpre & _)|(t & Hc & Hgate & Hrun)].
  - rewrite Hrun. simpl. exists pre. split; [reflexivity|].
    now destruct (capability_queries_only pre Hpre).
  - rewrite Hrun.
    destruct (dispatch_trace (dispatched c (instantiation_of t)) w
                (entry_prelude t)) as (evs & Htr & Hm).
    rewrite Htr. pose proof (memory_events_no_stream evs Hm) as Hno.
    unfold entry_prelude. destruct (bool_decide _); simpl.
    + eexists. split; [reflexivity|].
      intros Hin. repeat (apply elem_of_cons in Hin as [Hin|Hin];
                          [discriminate|]). contradiction.
    + eexists. split; [reflexivity|].
      intros Hin. repeat (apply elem_of_cons in Hin as [Hin|Hin];
                          [discriminate|]). contradiction.
Qed.

(** X12: an entry point has no handler of its own around the backend
    call: with the descriptor of a tag, and the gate passed when the tag
    is [float16], the call returns when the backend returns and ends with
    the backend's exception when the backend fails, the backend having
    started on an empty bridge. *)
Theorem backend_outcome_unchanged (c : entry_call) (t : TypeTag)
    (w : World) :
  entry_dtype c = Dtype t ->
  (t = numpy.float16 ->
   53 <= compute_capability ∧ 9020 <= runtime_version) ->
  snd (run_entry c w)
  = snd (run_backend (backend (dispatched c (instantiation_of t)))
           (_MemoryManager_init,
            extend w (entry_prelude t
                      ++ [EvBackend (dispatched c (instantiation_of t))]))).
Proof.
  intros Hc Hgate. destruct (decide (t = numpy.float16)) as [->|Ht].
  - destruct (Hgate eq_refl) as [Hcc Hrv].
    rewrite (run_entry_fp16 c w Hc).
    destruct (Z.ltb_spec compute_capability 53); [lia|].
    destruct (Z.ltb_spec runtime_version 9020); [lia|].
    rewrite with_bridge_call_result, extend_extend. reflexivity.
  - rewrite (run_entry_plain c t w Hc Ht).
    rewrite with_bridge_call_result, extend_extend.
    unfold entry_prelude. now rewrite bool_decide_eq_false_2.
Qed.

End EntryLaws.

Section Requests.

Context `{External}.

Lemma cupy_malloc_requests size (s : BridgeState) :
  ∃ evs,
    trace (snd (fst (cupy_malloc size s))) = trace (snd s) ++ evs
    ∧ Forall (fun sz => sz ≠ 0) (allocator_calls evs).
Proof.
  destruct s as [mm w]. destruct (decide (size = 0)) as [->|Hsize].
  { exists []. simpl. rewrite app_nil_r. split; [reflexivity|constructor]. }
  rewrite cupy_malloc_nonzero by assumption.
  destruct (memory_alloc (heap w) size) as [h [m|e]]; simpl.
  - destruct (memory mm !! ptr m) as [old|]; simpl.
    + exists [EvAlloc size (Ok m); EvRelease old].
      rewrite <- app_assoc. split; [reflexivity|]. simpl.
      repeat constructor. assumption.
    + exists [EvAlloc size (Ok m)]. split; [reflexivity|]. simpl.
      repeat constructor. assumption.
  - eexists. split; [reflexivity|]. simpl.
    repeat constructor. assumption.
Qed.

Lemma cupy_free_requests p (s : BridgeState) :
  ∃ evs,
    trace (snd (fst (cupy_free p s))) = trace (snd s) ++ evs
    ∧ Forall (fun sz => sz ≠ 0) (allocator_calls evs).
Proof.
  destruct s as [mm w]. destruct (decide (p = 0)) as [->|Hp].
  { exists []. simpl. rewrite app_nil_r. split; [reflexivity|constructor]. }
  rewrite cupy_free_nonnull by assumption.
  destruct (memory mm !! p) as [old|]; simpl.
  - exists [EvRelease old]. split; [reflexivity|constructor].
  - eexists. split; [reflexivity|constructor].
Qed.

Lemma run_backend_requests (p : backend_prog) :
  ∀ s : BridgeState,
    ∃ evs,
      trace (snd (fst (run_backend p s))) = trace (snd s) ++ evs
      ∧ Forall (fun sz => sz ≠ 0) (allocator_calls evs).
Proof.
  induction p as [|e|size k IH|a k IH]; intros s; simpl.
  - exists []. rewrite app_nil_r. split; [reflexivity|constructor].
  - exists []. rewrite app_nil_r. split; [reflexivity|constructor].
  - destruct (cupy_malloc_requests size s) as (evs1 & Ht1 & Hz1).
    destruct (cupy_malloc size s) as [s1 r]. simpl in Ht1.
    destruct (IH r s1) as (evs2 & Ht2 & Hz2).
    exists (evs1 ++ evs2). rewrite Ht2, Ht1, <- app_assoc.
    split; [reflexivity|].
    rewrite allocator_calls_app. now apply Forall_app.
  - destruct (cupy_free_requests a s) as (evs1 & Ht1 & Hz1).
    destruct (cupy_free a s) as [s1 r]. simpl in Ht1.
    destruct (IH r s1) as (evs2 & Ht2 & Hz2).
    exists (evs1 ++ evs2). rewrite Ht2, Ht1, <- app_assoc.
    split; [reflexivity|].
    rewrite allocator_calls_app. now apply Forall_app.
Qed.

Lemma allocator_calls_map_release (l : list MemoryPointer) :
  allocator_calls (map EvRelease l) = [].
Proof. induction l as [|m l IH]; simpl; [reflexivity|assumption]. Qed.

(** X13: whatever the backend asks of the bridge during a call of [sort],
    [lexsort] or [argsort], also requests of size 0, the external
    allocator is never called with size 0. *)
Theorem allocator_never_asked_for_zero (c : entry_call) (w : World) :
  ∃ evs,
    trace (fst (run_entry c w)) = trace w ++ evs
    ∧ Forall (fun sz => sz ≠ 0) (allocator_calls evs).
Proof.
  destruct (run_entry_cases c w)
    as [(pre & e & Hrun & Hpre & _)|(t & Hc & Hgate & Hrun)].
  - rewrite Hrun. simpl. eexists. split; [reflexivity|].
    destruct (capability_queries_only pre Hpre) as (_ & Ha & _).
    simpl. rewrite Ha. constructor.
  - rewrite Hrun, with_bridge_call_run.
    destruct (run_backend_requests
                (backend (dispatched c (instantiation_of t)))
                (_MemoryManager_init,
                 extend (extend w (entry_prelude t))
                   [EvBackend (dispatched c (instantiation_of t))]))
      as (evs & Htr & Hz).
    assert (Forall (fun sz => sz ≠ 0)
              (allocator_calls
                 (entry_prelude t
                  ++ EvBackend (dispatched c (instantiation_of t)) :: evs)))
      as Hall.
    { rewrite allocator_calls_app. simpl. apply Forall_app.
      split; [|assumption].
      unfold entry_prelude. destruct (bool_decide _); constructor. }
    destruct (run_backend _ _) as [[mm w'] [a|e]]; simpl in *.
    + rewrite dealloc_trace, Htr, <- !app_assoc. simpl.
      eexists. split; [reflexivity|].
      rewrite app_comm_cons, app_assoc, allocator_calls_app,
        allocator_calls_map_release, app_nil_r.
      exact Hall.
    + rewrite Htr, <- !app_assoc. simpl.
      eexists. split; [reflexivity|exact Hall].
Qed.

End Requests.

(** * The further properties at concrete inputs *)

(** X2 at a bridge that holds 64 bytes at 4096. *)
Lemma cupy_free_twice_witness :
  (4096 ≠ 0
   ∧ memory {| memory := {[ 4096 := {| ptr := 4096; nbytes := 64 |} ]} |}
     !! 4096
     = Some {| ptr := 4096; nbytes := 64 |})
  ∧ @cupy_free recent_device 4096
      ({| memory := {[ 4096 := {| ptr := 4096; nbytes := 64 |} ]} |},
       world0 recent_device 64)
    = (({| memory := delete 4096
                       {[ 4096 := {| ptr := 4096; nbytes := 64 |} ]} |},
        world_at recent_device 64
          [EvRelease {| ptr := 4096; nbytes := 64 |}]),
       Ok tt)
  ∧ snd (@cupy_free recent_device 4096
           (fst (@cupy_free recent_device 4096
                   ({| memory :=
                         {[ 4096 := {| ptr := 4096; nbytes := 64 |} ]} |},
                    world0 recent_device 64))))
    = Ok tt.
Proof.
  split; [split; [lia|reflexivity]|]. split; [reflexivity|].
  pose proof (@cupy_free_twice recent_device
                {| memory := {[ 4096 := {| ptr := 4096; nbytes := 64 |} ]} |}
                (world0 recent_device 64) 4096
                {| ptr := 4096; nbytes := 64 |} ltac:(lia) eq_refl)
    as (_ & _ & _ & Hsecond).
  now rewrite Hsecond.
Defined.

(** X3 at a fresh bridge and 64 bytes. *)
Lemma malloc_free_round_trip_witness :
  (64 ≠ 0
   ∧ @memory_alloc recent_device 0 64
     = (64, Ok {| ptr := 4096; nbytes := 64 |})
   ∧ 4096 ≠ 0
   ∧ memory _MemoryManager_init !! 4096 = None)
  ∧ fst (fst (@cupy_free recent_device 4096
                (fst (@cupy_malloc recent_device 64
                        (_MemoryManager_init, world0 recent_device 0)))))
    = _MemoryManager_init.
Proof.
  split; [split; [lia|split; [reflexivity|split; [lia|reflexivity]]]|].
  apply (@malloc_free_round_trip recent_device _MemoryManager_init
           (world0 recent_device 0) 64 64 {| ptr := 4096; nbytes := 64 |});
    [lia|reflexivity|simpl; lia|reflexivity].
Defined.

(** X4 at a fresh bridge and 64 bytes. *)
Lemma cupy_malloc_nonnull_recorded_witness :
  (snd (@cupy_malloc recent_device 64
          (_MemoryManager_init, world0 recent_device 0)) = Ok 4096
   ∧ 4096 ≠ 0)
  ∧ 64 ≠ 0
  ∧ ∃ m, snd (@memory_alloc recent_device 0 64) = Ok m
         ∧ ptr m = 4096
         ∧ memory (fst (fst (@cupy_malloc recent_device 64
                               (_MemoryManager_init,
                                world0 recent_device 0))))
           !! 4096
           = Some m.
Proof.
  split; [split; [reflexivity|lia]|].
  apply (proj2 (@cupy_malloc_nonnull_recorded recent_device
                  _MemoryManager_init (world0 recent_device 0) 64)
           4096 eq_refl).
  lia.
Defined.

(** X5 at a fresh bridge and three callbacks. *)
Lemma keyed_by_address_kept_witness :
  keyed_by_address (memory _MemoryManager_init)
  ∧ keyed_by_address
      (memory (fst (fst (@run_callbacks recent_device
                           [do_malloc 64; do_malloc 32; do_free 4096]
                           (_MemoryManager_init, world0 recent_device 0))))).
Proof.
  assert (keyed_by_address (memory _MemoryManager_init)) as Hempty.
  { intros k v Hkv. simpl in Hkv. now rewrite lookup_empty in Hkv. }
  split; [exact Hempty|].
  apply (proj2 (@keyed_by_address_kept recent_device
                  (_MemoryManager_init, world0 recent_device 0) Hempty)).
Defined.

(** X6 at a fresh bridge, two allocations and the key of the second. *)
Lemma keys_come_from_malloc_witness :
  is_Some (memory (fst (fst (@run_callbacks recent_device
                               [do_malloc 64; do_malloc 32]
                               (_MemoryManager_init,
                                world0 recent_device 0))))
           !! 4160)
  ∧ (is_Some (memory _MemoryManager_init !! 4160)
     ∨ returned_for_nonzero_size 4160
         (snd (@run_callbacks recent_device [do_malloc 64; do_malloc 32]
                 (_MemoryManager_init, world0 recent_device 0)))).
Proof.
  assert (is_Some (memory (fst (fst (@run_callbacks recent_device
                                       [do_malloc 64; do_malloc 32]
                                       (_MemoryManager_init,
                                        world0 recent_device 0))))
                   !! 4160)) as Hkey.
  { eexists. reflexivity. }
  split; [exact Hkey|].
  exact (@keys_come_from_malloc recent_device [do_malloc 64; do_malloc 32]
           (_MemoryManager_init, world0 recent_device 0) 4160 Hkey).
Defined.

(** X8 at [sort] of 32-bit integers, which returns. *)
Lemma entry_ok_dispatched_witness :
  snd (@run_entry recent_device (call_sort (Dtype numpy.int32) 1000 2000 [4])
         (world0 recent_device 0)) = Ok tt
  ∧ ∃ t, Dtype numpy.int32 = Dtype t
         ∧ backend_calls
             (trace (fst (@run_entry recent_device
                            (call_sort (Dtype numpy.int32) 1000 2000 [4])
                            (world0 recent_device 0))))
           = [_sort (instantiation_of t) 1000 2000 [4] 7].
Proof.
  split; [reflexivity|].
  destruct (proj1 (@entry_ok_dispatched recent_device
                     (call_sort (Dtype numpy.int32) 1000 2000 [4])
                     (world0 recent_device 0)) eq_refl)
    as (t & Ht & _ & Hcalls).
  exists t. split; [exact Ht|exact Hcalls].
Defined.

(** X9 at [lexsort] with a descriptor it does not know. *)
Lemma no_dispatch_no_allocation_witness :
  backend_calls
    (trace (fst (@run_entry recent_device
                   (call_lexsort (OtherDtype "float128") 1000 2000 2 3)
                   (world0 recent_device 0))))
  = backend_calls (trace (world0 recent_device 0))
  ∧ @heap recent_device
      (fst (@run_entry recent_device
              (call_lexsort (OtherDtype "float128") 1000 2000 2 3)
              (world0 recent_device 0)))
    = 0.
Proof.
  split; [reflexivity|].
  apply (@no_dispatch_no_allocation recent_device
           (call_lexsort (OtherDtype "float128") 1000 2000 2 3)
           (world0 recent_device 0)).
  reflexivity.
Defined.

(** X10 at [sort] with [float16] on a device of compute capability 52. *)
Lemma gate_queries_witness :
  dtype_eq (Dtype numpy.float16) numpy.float16 = true
  ∧ capability_queries
      (trace (fst (@run_entry old_device
                     (call_sort (Dtype numpy.float16) 1000 2000 [4])
                     (world0 old_device 0))))
    = [EvComputeCapability].
Proof.
  split; [reflexivity|].
  apply (@gate_queries old_device
           (call_sort (Dtype numpy.float16) 1000 2000 [4])
           (world0 old_device 0)).
  reflexivity.
Defined.

(** X12 at [argsort] with [float16] on a device that passes the gate. *)
Lemma backend_outcome_unchanged_witness :
  (numpy.float16 = numpy.float16 ->
   53 <= @compute_capability recent_device
   ∧ 9020 <= @runtime_version recent_device)
  ∧ snd (@run_entry recent_device
           (call_argsort (Dtype numpy.float16) 1000 2000 3000 [4])
           (world0 recent_device 0))
    = snd (@run_backend recent_device
             (two_buffers (_argsort_fp16 1000 2000 3000 [4] 7))
             (_MemoryManager_init,
              world_at recent_device 0
                [EvStream; EvComputeCapability; EvRuntimeVersion;
                 EvBackend (_argsort_fp16 1000 2000 3000 [4] 7)])).
Proof.
  split; [intros _; simpl; lia|].
  apply (@backend_outcome_unchanged recent_device
           (call_argsort (Dtype numpy.float16) 1000 2000 3000 [4])
           numpy.float16 (world0 recent_device 0));
    [reflexivity|intros _; simpl; lia].
Defined.
